(** * gpax: deep kernel learning and multi-task Gaussian processes

    A shallow embedding of [gpax/dkl.py] and [gpax/multitask/mtgp.py].

    The two files are thin statistical model definitions on top of three
    collaborators: the array library (jax.numpy), the probabilistic
    programming engine (numpyro) and the rest of the package (the [ExactGP]
    base class and the kernel library).  The array library is an interface
    ([ArrayLib]); the engine is modelled by the trace of sites that a model
    run records; [jax.jit] is modelled by the cache of the functions it has
    compiled; what the package defines outside the two files is gathered in
    the interface [Package]. *)

From stdpp Require Import base option list gmap strings fin_maps.
From Stdlib Require Import ZArith Lia.

Local Open Scope string_scope.
Local Open Scope list_scope.
Local Open Scope Z_scope.

(** ** Python exceptions and results *)

Inductive exn : Type :=
| KeyError (key : string)
| TypeError
| IndexError
| ValueError (msg : string)
| AssertionError (msg : string)
(** a reference to no object; never raised over a well-formed heap *)
| SystemError.

Definition result (A : Type) : Type := exn + A.

(** ** The array library

    [arr] is [jnp.ndarray].  Its operations are those the two files call.
    Exceptions raised inside the array library (shapes that do not fit, a
    negative dimension) are not modelled: the operations are total, and the
    laws speak of well-formed arguments only.  A property that is stated of
    a run that returns is therefore a property of the runs of the code in
    which the array library does not raise. *)

Class ArrayLib : Type := {
  arr : Type;
  (** An element of an array, compared the way [onp.unique] compares. *)
  elt : Type;
  elt_eq_dec :: EqDecision elt;
  (** [a.shape] *)
  shape : arr -> list Z;
  (** A Python number promoted to a 0-d array. *)
  lit : Z -> arr;
  (** [jnp.zeros(shape)], [jnp.ones(shape)] *)
  zeros : list Z -> arr;
  ones : list Z -> arr;
  (** [a + b], [a - b], [a * b], with broadcasting *)
  add : arr -> arr -> arr;
  sub : arr -> arr -> arr;
  mul : arr -> arr -> arr;
  (** [jnp.matmul], [jnp.tanh], [jnp.transpose], [jnp.linalg.inv],
      [a.squeeze()] *)
  matmul : arr -> arr -> arr;
  tanh : arr -> arr;
  transpose : arr -> arr;
  inv : arr -> arr;
  squeeze : arr -> arr;
  (** [a[:, -1]], as the list of its entries *)
  last_column : arr -> list elt;
  shape_lit : forall n, shape (lit n) = [];
  shape_zeros : forall s, Forall (Z.le 0) s -> shape (zeros s) = s;
  shape_ones : forall s, Forall (Z.le 0) s -> shape (ones s) = s;
  shape_mul_lit : forall n a, shape (mul (lit n) a) = shape a
}.

(** [len(onp.unique(xs))] *)
Definition num_unique `{ArrayLib} (xs : list elt) : Z :=
  Z.of_nat (length (remove_dups xs)).

(** ** The interpreter state

    Arrays bound to attributes of a model object live in a heap of
    immutable cells, so that a local name aliasing an attribute is visible
    as such; array operations take and return values.  A model run records
    its sample sites in a trace, in program order; [plates] is the stack of
    the [numpyro.plate] contexts that are open. *)

Definition loc := positive.

Section Interp.
Context `{AL : ArrayLib}.

(** A value held by a parameter dictionary. *)
Inductive pyval : Type :=
| VNone
| VArr (a : arr).

(** numpyro distributions, as the two files build them. *)
Inductive dist : Type :=
| Normal (loc_ scale : arr)
| LogNormal (loc_ scale : arr)
| MultivariateNormal (loc_ covariance_matrix : arr)
| Independent (base_dist : dist) (reinterpreted_batch_ndims : nat).

Record plate : Type := {
  plate_name : string;
  plate_size : Z;
  (** negative: counted from the right of the batch shape *)
  plate_dim : Z
}.

Inductive site_type : Type := SampleSite | DeterministicSite.

Record site : Type := {
  site_kind : site_type;
  site_name : string;
  site_fn : option dist;
  site_plates : list plate;
  site_obs : option arr;
  site_value : arr
}.

Record world : Type := {
  heap : gmap loc arr;
  trace : list site;
  plates : list plate
}.

Definition Py (S A : Type) : Type := S -> result A * S.

Definition ret {S A} (a : A) : Py S A := fun s => (inr a, s).

Definition raise {S A} (e : exn) : Py S A := fun s => (inl e, s).

Definition bind {S A B} (c : Py S A) (k : A -> Py S B) : Py S B :=
  fun s =>
    match c s with
    | (inl e, s') => (inl e, s')
    | (inr a, s') => k a s'
    end.

Definition get {S} : Py S S := fun s => (inr s, s).

Definition put {S} (s : S) : Py S unit := fun _ => (inr tt, s).

Definition modify {S} (f : S -> S) : Py S unit := fun s => (inr tt, f s).

(** A pure computation that may raise. *)
Definition lift_result {S A} (r : result A) : Py S A := fun s => (r, s).

(** A computation on the world, run next to an object of type [O]. *)
Definition lift_world {O A} (c : Py world A) : Py (O * world) A :=
  fun s =>
    match c (snd s) with
    | (r, w) => (r, (fst s, w))
    end.

End Interp.

Arguments pyval {AL}.
Arguments dist {AL}.
Arguments site {AL}.
Arguments world {AL}.

(** A parameter dictionary: names to arrays (or [None]). *)
Abbreviation dict := (gmap string pyval).

Declare Scope py_scope.
Delimit Scope py_scope with py.
Notation "x <~ c ;; k" := (bind c (fun x => k))
  (at level 100, c at next level, right associativity) : py_scope.
Notation "c ;;; k" := (bind c (fun _ => k))
  (at level 100, right associativity) : py_scope.

Local Open Scope py_scope.

(** ** numpyro

    The shapes follow numpyro: a distribution has a batch shape and an event
    shape, [to_event] moves batch dimensions into the event, an enclosing
    plate broadcasts the batch shape, and a drawn value has the batch shape
    followed by the event shape. *)

Section Numpyro.
Context `{AL : ArrayLib}.

(** [lax.broadcast_shapes] on shapes written right to left. *)
Fixpoint broadcast_rev (a b : list Z) : option (list Z) :=
  match a, b with
  | [], _ => Some b
  | _, [] => Some a
  | x :: a', y :: b' =>
      match broadcast_rev a' b' with
      | None => None
      | Some r =>
          if decide (x = y) then Some (x :: r)
          else if decide (x = 1) then Some (y :: r)
          else if decide (y = 1) then Some (x :: r)
          else None
      end
  end.

Definition broadcast_shapes (a b : list Z) : option (list Z) :=
  reverse <$> broadcast_rev (reverse a) (reverse b).

(** [(d.batch_shape, d.event_shape)] *)
Fixpoint batch_event (d : dist) : option (list Z * list Z) :=
  match d with
  | Normal l s | LogNormal l s =>
      b ← broadcast_shapes (shape l) (shape s); Some (b, [])
  | MultivariateNormal l c =>
      b ← broadcast_shapes (removelast (shape l))
                           (removelast (removelast (shape c)));
      Some (b, drop (length (shape c) - 1)%nat (shape c))
  | Independent d' n =>
      be ← batch_event d';
      if decide (n <= length be.1)%nat
      then Some (take (length be.1 - n)%nat be.1,
                 drop (length be.1 - n)%nat be.1 ++ be.2)
      else None
  end.

(** The batch shape that the open plates ask for. *)
Definition plates_batch_shape (ps : list plate) : list Z :=
  let n := foldr (fun p m => Z.max (- plate_dim p) m) 0 ps in
  foldr (fun p acc => <[Z.to_nat (n + plate_dim p) := plate_size p]> acc)
        (replicate (Z.to_nat n) 1) ps.

(** The shape of a value drawn at a site. *)
Definition sample_shape (ps : list plate) (d : dist) : option (list Z) :=
  be ← batch_event d;
  b ← broadcast_shapes (plates_batch_shape ps) be.1;
  Some (b ++ be.2).

(** The first dimension, from [-1] leftwards, that no open plate uses. *)
Definition free_dim (ps : list plate) : Z :=
  default (-1)
    (head (filter (fun d => d ∉ plate_dim <$> ps)
                  ((fun k => - Z.of_nat k) <$> seq 1 (S (length ps))))).

End Numpyro.

(** The engine decides the value of a site that is not observed (a seeded
    draw, a substituted posterior sample); the value has the shape of the
    site. *)
Class Engine `{AL : ArrayLib} : Type := {
  draw : string -> dist -> list Z -> arr;
  shape_draw : forall name d s, Forall (Z.le 0) s -> shape (draw name d s) = s
}.

Section Primitives.
Context `{AL : ArrayLib} `{EN : !Engine}.

(** The world with one more site at the end of its trace. *)
Definition push_site (s : site) (w : world) : world :=
  {| heap := heap w; trace := trace w ++ [s]; plates := plates w |}.

Definition record_site (s : site) : Py world unit := modify (push_site s).

(** The site of a [numpyro.sample] statement. *)
Definition sample_site (name : string) (fn : dist) (obs : option arr)
    (ps : list plate) (v : arr) : site :=
  {| site_kind := SampleSite; site_name := name; site_fn := Some fn;
     site_plates := ps; site_obs := obs; site_value := v |}.

(** [numpyro.sample(name, fn, obs=obs)].  An observed site takes the
    observation as its value. *)
Definition sample (name : string) (fn : dist) (obs : option arr)
  : Py world arr :=
  w <~ get;;
  v <~ match obs with
       | Some v => ret v
       | None =>
           match sample_shape (plates w) fn with
           | Some s => ret (draw name fn s)
           | None => raise (ValueError "Incompatible shapes for broadcasting")
           end
       end;;
  record_site (sample_site name fn obs (plates w) v);;;
  ret v.

(** [numpyro.deterministic(name, value)] *)
Definition deterministic (name : string) (value : arr) : Py world arr :=
  w <~ get;;
  record_site {| site_kind := DeterministicSite; site_name := name;
                 site_fn := None; site_plates := plates w;
                 site_obs := None; site_value := value |};;;
  ret value.

(** [with numpyro.plate(name, size, dim=dim): body].  The constructor of the
    plate asserts that the size is positive, then checks the dimension. *)
Definition with_plate {A} (name : string) (size : Z) (dim : option Z)
    (body : Py world A) : Py world A :=
  fun w =>
    if decide (size <= 0)
    then (inl (AssertionError "size of plate should be positive"), w)
    else
    match dim with
    | Some d =>
        if decide (0 <= d) then (inl (ValueError "dim arg must be negative."), w)
        else
          let p := {| plate_name := name; plate_size := size; plate_dim := d |} in
          match body {| heap := heap w; trace := trace w;
                        plates := plates w ++ [p] |} with
          | (r, w') => (r, {| heap := heap w'; trace := trace w';
                              plates := plates w |})
          end
    | None =>
        let p := {| plate_name := name; plate_size := size;
                    plate_dim := free_dim (plates w) |} in
        match body {| heap := heap w; trace := trace w;
                      plates := plates w ++ [p] |} with
        | (r, w') => (r, {| heap := heap w'; trace := trace w';
                            plates := plates w |})
        end
    end.

(** [d[key]] *)
Definition getitem {S} (d : dict) (key : string) : Py S pyval :=
  match d !! key with
  | Some v => ret v
  | None => raise (KeyError key)
  end.

(** An operand of an array operation: [None] is not one. *)
Definition as_array {S} (v : pyval) : Py S arr :=
  match v with
  | VArr a => ret a
  | VNone => raise TypeError
  end.

(** [a.shape[0]] *)
Definition shape0 {S} (a : arr) : Py S Z :=
  match shape a with
  | n :: _ => ret n
  | [] => raise IndexError
  end.

(** The array that an attribute holds, where the code operates on it.  The
    attributes [X_train] and [y_train] are [None] until the model is fit, and
    an operation on [None] (a subscript, an array operation) raises
    [TypeError]. *)
Definition operand {S A} (v : option A) : Py S A :=
  match v with
  | Some a => ret a
  | None => raise TypeError
  end.

(** The array that a reference stands for. *)
Definition load (l : loc) : Py world arr :=
  w <~ get;;
  match heap w !! l with
  | Some a => ret a
  | None => raise SystemError
  end.

(** A new array object. *)
Definition alloc (a : arr) : Py world loc :=
  w <~ get;;
  let l := fresh (dom (heap w)) in
  put {| heap := <[l := a]> (heap w); trace := trace w; plates := plates w |};;;
  ret l.

(** [x -= v] where [x] names a jax array.  jax arrays are immutable and
    define no [__isub__]: Python evaluates [x = x - v], which binds the name
    to a new array. *)
Definition isub (x : loc) (v : arr) : Py world loc :=
  a <~ load x;;
  alloc (sub a v).

End Primitives.

(** ** Objects of the package *)

Section Objects.
Context `{AL : ArrayLib}.

(** The [data_kernel] argument: the name of a kernel or a custom function. *)
Inductive data_kernel_arg : Type :=
| KernelName (s : string)
| KernelFn (k : arr -> arr -> dict -> arr).

(** [LCMKernel(base_kernel, shared_input_space, num_tasks, **kwargs)] keeps
    what it is constructed from. *)
Record LCMKernel_obj : Type := {
  lcm_base_kernel : data_kernel_arg;
  lcm_shared_input_space : bool;
  lcm_num_tasks : option Z;
  lcm_kwargs : dict
}.

(** Python objects that are passed around untyped. *)
Inductive pyobj : Type :=
| ONone
| OInt (n : Z)
| OStr (s : string)
| OPrior (p : Py world dict)
| ONoisePrior (p : Py world arr)
| OMeanFn (f : arr -> option dict -> arr)
| OLCMKernel (k : LCMKernel_obj).

Definition of_option {A} (f : A -> pyobj) (o : option A) : pyobj :=
  match o with
  | Some a => f a
  | None => ONone
  end.

(** The attributes of [ExactGP] that the two subclasses read.  [X_train]
    and [y_train] refer to the arrays that [fit] stored; they are [None]
    before. *)
Record ExactGP : Type := {
  kernel_dim : Z;
  kernel : pyobj;
  mean_fn : option (arr -> option dict -> arr);
  kernel_prior : option (Py world dict);
  mean_fn_prior : option (Py world dict);
  noise_prior : option (Py world arr);
  X_train : option loc;
  y_train : option loc
}.

(** Modelled from the spec: [ExactGP.__init__] of [gpax/gp.py], which is not
    among the sources.  Its parameters are, in this order, [input_dim],
    [kernel], [mean_fn], [kernel_prior], [mean_fn_prior] and [noise_prior]
    (the order in which [mtgp.py] passes them, line 57), the last four
    defaulting to [None]; it stores each argument under the name of its
    parameter ([input_dim] as [kernel_dim]) and sets [X_train] and [y_train]
    to [None].  The arguments are bound by position; an object that is not
    of the kind of its parameter is not one that the two subclasses could
    use under that name, and the field is left empty. *)
Definition ExactGP_init (args : list pyobj) : ExactGP :=
  {| kernel_dim := match args !! 0%nat with Some (OInt d) => d | _ => 0 end;
     kernel := default ONone (args !! 1%nat);
     mean_fn := match args !! 2%nat with
                | Some (OMeanFn f) => Some f
                | _ => None
                end;
     kernel_prior := match args !! 3%nat with
                     | Some (OPrior p) => Some p
                     | _ => None
                     end;
     mean_fn_prior := match args !! 4%nat with
                      | Some (OPrior p) => Some p
                      | _ => None
                      end;
     noise_prior := match args !! 5%nat with
                    | Some (ONoisePrior p) => Some p
                    | _ => None
                    end;
     X_train := None;
     y_train := None |}.

Definition set_kernel_dim (d : Z) (g : ExactGP) : ExactGP :=
  {| kernel_dim := d; kernel := kernel g; mean_fn := mean_fn g;
     kernel_prior := kernel_prior g; mean_fn_prior := mean_fn_prior g;
     noise_prior := noise_prior g; X_train := X_train g;
     y_train := y_train g |}.

Definition set_kernel (k : pyobj) (g : ExactGP) : ExactGP :=
  {| kernel_dim := kernel_dim g; kernel := k; mean_fn := mean_fn g;
     kernel_prior := kernel_prior g; mean_fn_prior := mean_fn_prior g;
     noise_prior := noise_prior g; X_train := X_train g;
     y_train := y_train g |}.

(** A [DKL] object: the attributes of the base class and its own. *)
Record DKL : Type := {
  dkl_base : ExactGP;
  dkl_bnn : arr -> dict -> result arr;
  dkl_bnn_prior : Py world dict;
  latent_prior : option (arr -> Py world arr);
  gp_mean_fn : option (arr -> option dict -> arr);
  gp_mean_fn_prior : option (Py world dict)
}.

(** A [MultiTaskGP] object. *)
Record MultiTaskGP : Type := {
  mt_base : ExactGP;
  num_tasks : option Z;
  num_latents : option Z;
  rank : option Z;
  data_kernel_name : option string;
  data_kernel_prior : option (Py world dict);
  task_kernel_prior : option (Py world dict);
  shared_input : bool;
  output_scale : bool
}.

Definition set_num_tasks (t : option Z) (m : MultiTaskGP) : MultiTaskGP :=
  {| mt_base := mt_base m; num_tasks := t; num_latents := num_latents m;
     rank := rank m; data_kernel_name := data_kernel_name m;
     data_kernel_prior := data_kernel_prior m;
     task_kernel_prior := task_kernel_prior m;
     shared_input := shared_input m; output_scale := output_scale m |}.

Definition set_rank (r : option Z) (m : MultiTaskGP) : MultiTaskGP :=
  {| mt_base := mt_base m; num_tasks := num_tasks m;
     num_latents := num_latents m; rank := r;
     data_kernel_name := data_kernel_name m;
     data_kernel_prior := data_kernel_prior m;
     task_kernel_prior := task_kernel_prior m;
     shared_input := shared_input m; output_scale := output_scale m |}.

End Objects.

Arguments data_kernel_arg {AL}.
Arguments LCMKernel_obj {AL}.
Arguments pyobj {AL}.
Arguments ExactGP {AL}.
Arguments DKL {AL}.
Arguments MultiTaskGP {AL}.

(** ** The rest of the package

    [gpax/gp.py] and [gpax/kernels.py] are not among the sources.  What the
    two files use of them, the constructor of the base class apart, is a
    parameter of the development:
    - [get_kernel(kernel)(X, Z, params, noise, jitter=...)], where [None]
      for [noise] or [jitter] stands for an argument that the call leaves
      out;
    - the inherited [ExactGP._sample_kernel_params];
    - the exception, if any, that the constructor
      [LCMKernel(base_kernel, shared_input_space, num_tasks, **kwargs)]
      raises (it looks the kernel up by its name);
    - [LCMKernel.__call__(X, Z, params, noise, **kwargs)]. *)
Class Package `{AL : ArrayLib} : Type := {
  get_kernel : pyobj -> arr -> arr -> dict -> option arr -> option Z -> arr;
  ExactGP_sample_kernel_params : ExactGP -> Py world dict;
  LCMKernel_raises : data_kernel_arg -> bool -> option Z -> dict -> option exn;
  LCMKernel_call :
    LCMKernel_obj -> arr -> arr -> dict -> arr -> dict -> arr
}.

(** ** gpax/dkl.py *)

Section DKL_source.
Context `{AL : ArrayLib} `{EN : !Engine} `{PK : !Package}.

(** [params[key]], used as an operand of an array operation. *)
Definition param (params : dict) (key : string) : result arr :=
  match params !! key with
  | None => inl (KeyError key)
  | Some VNone => inl TypeError
  | Some (VArr a) => inr a
  end.

Definition rbind {A B} (r : result A) (k : A -> result B) : result B :=
  match r with
  | inl e => inl e
  | inr a => k a
  end.

(** Sampling weights matrix *)
Definition sample_weights (name : string) (in_channels out_channels : Z)
  : Py world arr :=
  sample name (Normal (zeros [in_channels; out_channels])
                      (ones [in_channels; out_channels])) None.

(** Sampling bias vector *)
Definition sample_biases (name : string) (channels : Z) : Py world arr :=
  sample name (Normal (zeros [channels]) (ones [channels])) None.

(** Simple Bayesian MLP *)
Definition bnn (X : arr) (params : dict) : result arr :=
  rbind (param params "w1") (fun w1 =>
  rbind (param params "b1") (fun b1 =>
  let h1 := tanh (add (matmul X w1) b1) in
  rbind (param params "w2") (fun w2 =>
  rbind (param params "b2") (fun b2 =>
  let h2 := tanh (add (matmul h1 w2) b2) in
  rbind (param params "w3") (fun w3 =>
  rbind (param params "b3") (fun b3 =>
  let z := add (matmul h2 w3) b3 in
  inr z)))))).

(** Priors over weights and biases in the default Bayesian MLP *)
Definition bnn_prior (input_dim zdim : Z) : Py world dict :=
  let hdim0 := 64 in
  let hdim1 := 32 in
  w1 <~ sample_weights "w1" input_dim hdim0;;
  b1 <~ sample_biases "b1" hdim0;;
  w2 <~ sample_weights "w2" hdim0 hdim1;;
  b2 <~ sample_biases "b2" hdim1;;
  w3 <~ sample_weights "w3" hdim1 zdim;;
  b3 <~ sample_biases "b3" zdim;;
  ret (<["w1" := VArr w1]> (<["b1" := VArr b1]> (<["w2" := VArr w2]>
      (<["b2" := VArr b2]> (<["w3" := VArr w3]> (<["b3" := VArr b3]> ∅)))))).

(** [DKL.__init__] ([z_dim] defaults to 2, [kernel] to ['RBF'], the others
    to [None]).  The base class receives [kernel_prior] as its third
    positional argument. *)
Definition DKL_init (input_dim z_dim : Z) (kernel_ : string)
    (kernel_prior_ : option (Py world dict))
    (gp_mean_fn_ : option (arr -> option dict -> arr))
    (gp_mean_fn_prior_ : option (Py world dict))
    (bnn_fn : option (arr -> dict -> result arr))
    (bnn_fn_prior : option (Py world dict))
    (latent_prior_ : option (arr -> Py world arr)) : result DKL :=
  let base :=
    ExactGP_init [OInt input_dim; OStr kernel_; of_option OPrior kernel_prior_] in
  inr {| dkl_base := set_kernel_dim z_dim base;
         dkl_bnn := match bnn_fn with Some f => f | None => bnn end;
         dkl_bnn_prior := match bnn_fn_prior with
                          | Some p => p
                          | None => bnn_prior input_dim z_dim
                          end;
         latent_prior := latent_prior_;
         gp_mean_fn := gp_mean_fn_;
         gp_mean_fn_prior := gp_mean_fn_prior_ |}.

(** DKL probabilistic model *)
Definition DKL_model (self : DKL) (X y : arr) : Py world unit :=
  (* BNN part *)
  bnn_params <~ dkl_bnn_prior self;;
  z <~ lift_result (dkl_bnn self X bnn_params);;
  (* Add GP prior mean function (if any) *)
  n <~ shape0 z;;
  let f_loc := zeros [n] in
  f_loc <~ match gp_mean_fn self with
           | Some m =>
               match gp_mean_fn_prior self with
               | Some prior =>
                   mp <~ prior;;
                   ret (add f_loc (squeeze (m z (Some mp))))
               | None => ret (add f_loc (squeeze (m z None)))
               end
           | None => ret f_loc
           end;;
  (* Sample latent variable *)
  z <~ match latent_prior self with
       | Some lp => lp z
       | None => ret z
       end;;
  (* Sample GP kernel parameters *)
  kernel_params <~ match kernel_prior (dkl_base self) with
                   | Some prior => prior
                   | None => ExactGP_sample_kernel_params (dkl_base self)
                   end;;
  (* Sample noise *)
  noise <~ sample "noise" (LogNormal (lit 0) (lit 1)) None;;
  (* compute kernel *)
  let k := get_kernel (kernel (dkl_base self)) z z kernel_params
                      (Some noise) None in
  (* sample y according to the standard Gaussian process formula *)
  sample "y" (MultivariateNormal f_loc k) (Some y);;;
  ret tt.

(** Returns parameters (mean and cov) of multivariate normal posterior for
    a single sample of DKL hyperparameters.

    This is the body of the method, as Python runs it when [jax.jit] traces
    it; the method as decorated is [get_mvn_posterior_jit] below.  On a
    model that was never fit the network is applied to [None], and so are
    the subtraction or the product that take the targets. *)
Definition get_mvn_posterior (self : DKL) (X_new : arr) (params : dict)
    (noiseless : bool) : Py world (arr * arr) :=
  noise <~ lift_result (param params "noise");;
  let noise_p := mul noise (sub (lit 1) (lit (if noiseless then 1 else 0))) in
  (* embed data into the latent space *)
  X_train_ <~ (l <~ operand (X_train (dkl_base self));; load l);;
  z_train <~ lift_result (dkl_bnn self X_train_ params);;
  z_test <~ lift_result (dkl_bnn self X_new params);;
  (* Mean function *)
  let y_residual := y_train (dkl_base self) in
  y_residual <~ match gp_mean_fn self with
                | Some m =>
                    let args := match gp_mean_fn_prior self with
                                | Some _ => Some params
                                | None => None
                                end in
                    l <~ operand y_residual;;
                    l' <~ isub l (squeeze (m z_train args));;
                    ret (Some l')
                | None => ret y_residual
                end;;
  (* compute kernel matrices for train and test data *)
  let k_pp := get_kernel (kernel (dkl_base self)) z_test z_test params
                         (Some noise_p) None in
  let k_pX := get_kernel (kernel (dkl_base self)) z_test z_train params
                         None (Some 0) in
  let k_XX := get_kernel (kernel (dkl_base self)) z_train z_train params
                         (Some noise) None in
  (* compute the predictive covariance and mean *)
  let K_xx_inv := inv k_XX in
  let cov := sub k_pp (matmul k_pX (matmul K_xx_inv (transpose k_pX))) in
  y_res <~ (l <~ operand y_residual;; load l);;
  let mean := matmul k_pX (matmul K_xx_inv y_res) in
  let mean := match gp_mean_fn self with
              | Some m =>
                  let args := match gp_mean_fn_prior self with
                              | Some _ => Some params
                              | None => None
                              end in
                  add mean (squeeze (m z_test args))
              | None => mean
              end in
  ret (mean, cov).

(** *** [@partial(jit, static_argnames='self')]

    [jax.jit] runs the body of the method when it is called for the first
    time with a given static argument (the model object) and given shapes
    of the other arguments, and keeps the function it has compiled from
    that run.  What the body reads through [self] during that run, the
    arrays [self.X_train] and [self.y_train] among it, is a constant of the
    compiled function.  A later call with arguments of the same shapes runs
    the compiled function: it does not run the body, and does not read the
    attributes again.  A run of the body that raises compiles nothing. *)

(** The shapes of the traced arguments: those of [X_new] and of the entries
    of [params] ([noiseless] is a scalar). *)
Definition jit_key : Type := list Z * gmap string (option (list Z)).

Definition jit_key_of (X_new : arr) (params : dict) : jit_key :=
  (shape X_new,
   (fun v => match v with
             | VNone => None
             | VArr a => Some (shape a)
             end) <$> params).

(** A compiled function, and the functions compiled so far for one model
    object, latest first. *)
Definition compiled : Type := arr -> dict -> bool -> result (arr * arr).

Definition jit_cache : Type := list (jit_key * compiled).

Fixpoint jit_lookup (k : jit_key) (cache : jit_cache) : option compiled :=
  match cache with
  | [] => None
  | (k', f) :: cache' => if decide (k' = k) then Some f else jit_lookup k cache'
  end.

(** [self.get_mvn_posterior(X_new, params, noiseless)], for the model object
    whose compiled functions are [cache]. *)
Definition get_mvn_posterior_jit (self : DKL) (X_new : arr) (params : dict)
    (noiseless : bool) : Py (jit_cache * world) (arr * arr) :=
  fun s =>
    let cache := fst s in
    let w := snd s in
    match jit_lookup (jit_key_of X_new params) cache with
    | Some f => (f X_new params noiseless, (cache, w))
    | None =>
        match get_mvn_posterior self X_new params noiseless w with
        | (inr mc, w') =>
            (inr mc,
             ((jit_key_of X_new params,
               fun X p b => fst (get_mvn_posterior self X p b w)) :: cache, w'))
        | (inl e, w') => (inl e, (cache, w'))
        end
    end.

End DKL_source.

(** ** gpax/multitask/mtgp.py *)

Section MultiTaskGP_source.
Context `{AL : ArrayLib} `{EN : !Engine} `{PK : !Package}.

(** [MultiTaskGP.__init__] ([shared_input_space] defaults to [True],
    [output_scale] to [False], the optional arguments to [None]).  The
    object is discarded when the constructor of the kernel raises. *)
Definition MultiTaskGP_init (input_dim : Z) (data_kernel : data_kernel_arg)
    (num_latents_ : option Z) (shared_input_space : bool)
    (num_tasks_ : option Z) (rank_ : option Z)
    (mean_fn_ : option (arr -> option dict -> arr))
    (data_kernel_prior_ : option (Py world dict))
    (mean_fn_prior_ : option (Py world dict))
    (noise_prior_ : option (Py world arr))
    (task_kernel_prior_ : option (Py world dict))
    (output_scale_ : bool) (kwargs : dict) : result MultiTaskGP :=
  let args := [OInt input_dim; ONone; of_option OMeanFn mean_fn_; ONone;
               of_option OPrior mean_fn_prior_;
               of_option ONoisePrior noise_prior_] in
  let base := ExactGP_init args in
  rbind (if shared_input_space
         then match num_tasks_ with
              | None => inl (ValueError "Please specify num_tasks")
              | Some _ => inr tt
              end
         else match num_latents_ with
              | None => inl (ValueError "Please specify num_latents")
              | Some _ => inr tt
              end) (fun _ =>
  rbind (match LCMKernel_raises data_kernel shared_input_space num_tasks_
                 kwargs with
         | Some e => inl e
         | None =>
             inr (OLCMKernel {| lcm_base_kernel := data_kernel;
                                lcm_shared_input_space := shared_input_space;
                                lcm_num_tasks := num_tasks_;
                                lcm_kwargs := kwargs |})
         end) (fun kernel_ =>
  inr {| mt_base := set_kernel kernel_ base;
         num_tasks := num_tasks_;
         num_latents := match num_latents_ with
                        | None => num_tasks_
                        | Some l => Some l
                        end;
         rank := rank_;
         data_kernel_name := match data_kernel with
                             | KernelName s => Some s
                             | KernelFn _ => None
                             end;
         data_kernel_prior := data_kernel_prior_;
         task_kernel_prior := task_kernel_prior_;
         shared_input := shared_input_space;
         output_scale := output_scale_ |})).

Definition get_self {O} : Py (O * world) O := fun s => (inr (fst s), s).

Definition update_self {O} (f : O -> O) : Py (O * world) unit :=
  fun s => (inr tt, (f (fst s), snd s)).

(** An integer operand: arithmetic on [None] raises [TypeError]. *)
Definition as_int {S} (v : option Z) : Py S Z :=
  match v with
  | Some n => ret n
  | None => raise TypeError
  end.

(** Sample task kernel parameters with default weakly-informative priors
    for all the latent functions *)
Definition _sample_task_kernel_params (self : MultiTaskGP) : Py world dict :=
  L <~ as_int (num_latents self);;
  T <~ as_int (num_tasks self);;
  r <~ as_int (rank self);;
  let W_dist := Normal (zeros [L; T; r]) (mul (lit 10) (ones [L; T; r])) in
  let v_dist := LogNormal (zeros [L; T]) (ones [L; T]) in
  Wv <~ with_plate "latent_plate_task" L None
          (W <~ sample "W" (Independent W_dist 2) None;;
           v <~ sample "v" (Independent v_dist 1) None;;
           ret (W, v));;
  ret (<["W" := VArr (fst Wv)]> (<["v" := VArr (snd Wv)]> ∅)).

(** Sample data ("base") kernel parameters with default weakly-informative
    priors for all the latent functions *)
Definition _sample_kernel_params (self : MultiTaskGP) : Py world dict :=
  let squeezer (x : arr) : Py world arr :=
    L <~ as_int (num_latents self);;
    ret (if decide (1 < L) then squeeze x else x) in
  L <~ as_int (num_latents self);;
  lsp <~ with_plate "latent_plate_data" L (Some (-2))
           (length_ <~ with_plate "ard" (kernel_dim (mt_base self)) (Some (-1))
                         (sample "k_length" (LogNormal (lit 0) (lit 1)) None);;
            scale <~ (if output_scale self
                      then sample "k_scale" (LogNormal (lit 0) (lit 1)) None
                      else deterministic "k_scale" (ones [L]));;
            period <~ (if decide (data_kernel_name self = Some "Periodic")
                       then p <~ sample "period" (LogNormal (lit 0) (lit 1)) None;;
                            ret (Some p)
                       else ret None);;
            ret (length_, scale, period));;
  let '(length_, scale, period) := lsp in
  k_length <~ squeezer length_;;
  k_scale <~ squeezer scale;;
  period' <~ match period with
             | Some p => p' <~ squeezer p;; ret (VArr p')
             | None => ret VNone
             end;;
  ret (<["k_length" := VArr k_length]> (<["k_scale" := VArr k_scale]>
      (<["period" := period']> ∅))).

(** Multitask GP probabilistic model with inputs X and targets y *)
Definition MultiTaskGP_model (X : arr) (y : option arr) (kwargs : dict)
  : Py (MultiTaskGP * world) unit :=
  self <~ get_self;;
  (* Initialize mean function at zeros *)
  n <~ shape0 X;;
  f_loc <~ (if shared_input self
            then T <~ as_int (num_tasks self);; ret (zeros [T * n])
            else ret (zeros [n]));;
  (* Check that we have necessary info for sampling kernel params *)
  (if negb (shared_input self) && bool_decide (num_tasks self = None)
   then l <~ operand (X_train (mt_base self));;
        X_train_ <~ lift_world (load l);;
        update_self (set_num_tasks (Some (num_unique (last_column X_train_))))
   else ret tt);;;
  self <~ get_self;;
  (match rank self with
   | None => T <~ as_int (num_tasks self);;
             update_self (set_rank (Some (T - 1)))
   | Some _ => ret tt
   end);;;
  self <~ get_self;;
  (* Sample data kernel parameters *)
  data_kernel_params <~ lift_world
    match data_kernel_prior self with
    | Some prior => prior
    | None => _sample_kernel_params self
    end;;
  (* Sample task kernel parameters *)
  task_kernel_params <~ lift_world
    match task_kernel_prior self with
    | Some prior => prior
    | None => _sample_task_kernel_params self
    end;;
  (* Combine two dictionaries with parameters *)
  let kernel_params : dict := task_kernel_params ∪ data_kernel_params in
  (* Sample noise *)
  noise <~ lift_world
    match noise_prior (mt_base self) with
    | Some prior => prior
    | None =>
        T <~ as_int (num_tasks self);;
        sample "noise" (Independent (LogNormal (zeros [T]) (ones [T])) 1) None
    end;;
  (* Compute multitask_kernel *)
  k <~ match kernel (mt_base self) with
       | OLCMKernel lcm => ret (LCMKernel_call lcm X X kernel_params noise kwargs)
       | _ => raise TypeError
       end;;
  (* Add mean function (if any) *)
  f_loc <~ match mean_fn (mt_base self) with
           | Some m =>
               match mean_fn_prior (mt_base self) with
               | Some prior =>
                   mp <~ lift_world prior;;
                   ret (add f_loc (squeeze (m X (Some mp))))
               | None => ret (add f_loc (squeeze (m X None)))
               end
           | None => ret f_loc
           end;;
  (* Sample y according to the standard Gaussian process formula *)
  lift_world (sample "y" (MultivariateNormal f_loc k) y);;;
  ret tt.

End MultiTaskGP_source.

(** ** A reference instance

    Integer arrays in row-major order, to run the two files on concrete
    inputs.  [tanh] is replaced by clamping to [-1, 1] and the inverse by
    the transpose, which is the inverse of a signed permutation matrix. *)

Module Ref.

Record iarr : Type := { dims : list Z; data : list Z }.

Definition numel (s : list Z) : nat := Z.to_nat (foldr Z.mul 1 s).

Definition full (s : list Z) (x : Z) : iarr :=
  {| dims := s; data := replicate (numel s) x |}.

(** The position, in the data of an operand of dimensions [ds], of the
    entry that broadcasting puts at position [i] of a result of dimensions
    [s].  Both lists of dimensions are written from the last to the first;
    [stride] is the distance in the data of the operand between two entries
    that are neighbours along the dimension at hand.  A dimension of size 1
    of the operand is repeated. *)
Fixpoint source_index (s ds : list Z) (i stride : nat) : nat :=
  match s, ds with
  | n :: s', d :: ds' =>
      ((if decide (d = 1%Z) then 0 else (i mod Z.to_nat n) * stride) +
       source_index s' ds' (i / Z.to_nat n) (stride * Z.to_nat d))%nat
  | _, _ => 0%nat
  end.

(** The data of [a] broadcast to the dimensions [s]. *)
Definition broadcast_to (s : list Z) (a : iarr) : list Z :=
  (fun i => nth (source_index (reverse s) (reverse (dims a)) i 1) (data a) 0)
    <$> seq 0 (numel s).

(** An elementwise operation, with the broadcasting of numpy.  (Where jax
    raises because the shapes do not broadcast, the first operand is
    returned.) *)
Definition elementwise (f : Z -> Z -> Z) (a b : iarr) : iarr :=
  match broadcast_shapes (dims a) (dims b) with
  | Some s => {| dims := s;
                 data := zip_with f (broadcast_to s a) (broadcast_to s b) |}
  | None => a
  end.

(** The rows of a matrix with [m] columns. *)
Definition rows (n m : Z) (xs : list Z) : list (list Z) :=
  reshape (replicate (Z.to_nat n) (Z.to_nat m)) xs.

Definition column (j : nat) (rs : list (list Z)) : list Z :=
  (fun r => nth j r 0) <$> rs.

Definition columns (m : Z) (rs : list (list Z)) : list (list Z) :=
  (fun j => column j rs) <$> seq 0 (Z.to_nat m).

Definition dot (u v : list Z) : Z := foldr Z.add 0 (zip_with Z.mul u v).

Definition imatmul (a b : iarr) : iarr :=
  match dims a, dims b with
  | [n; k], [_; m] =>
      let cs := columns m (rows k m (data b)) in
      {| dims := [n; m];
         data := r ← rows n k (data a); (dot r) <$> cs |}
  | [n; k], [_] =>
      {| dims := [n]; data := (fun r => dot r (data b)) <$> rows n k (data a) |}
  | _, _ => a
  end.

Definition itranspose (a : iarr) : iarr :=
  match dims a with
  | [n; m] => {| dims := [m; n];
                 data := mjoin (columns m (rows n m (data a))) |}
  | _ => a
  end.

Definition iclamp (a : iarr) : iarr :=
  {| dims := dims a; data := (fun x => Z.max (-1) (Z.min 1 x)) <$> data a |}.

Definition isqueeze (a : iarr) : iarr :=
  {| dims := filter (fun d => d ≠ 1) (dims a); data := data a |}.

Definition ilast_column (a : iarr) : list Z :=
  match dims a with
  | [n; m] => (fun r => List.last r 0) <$> rows n m (data a)
  | _ => []
  end.

Lemma dims_mul_full n a :
  dims (elementwise Z.mul (full [] n) a) = dims a.
Proof.
  unfold elementwise, broadcast_shapes. simpl.
  rewrite reverse_involutive. reflexivity.
Qed.

#[export] Instance arrays : ArrayLib := {|
  arr := iarr;
  elt := Z;
  shape := dims;
  lit := full [];
  zeros s := full s 0;
  ones s := full s 1;
  add := elementwise Z.add;
  sub := elementwise Z.sub;
  mul := elementwise Z.mul;
  matmul := imatmul;
  tanh := iclamp;
  transpose := itranspose;
  inv := itranspose;
  squeeze := isqueeze;
  last_column := ilast_column;
  shape_lit := fun _ => eq_refl;
  shape_zeros := fun _ _ => eq_refl;
  shape_ones := fun _ _ => eq_refl;
  shape_mul_lit := dims_mul_full
|}.

(** The engine that draws the array of ones at every site. *)
#[export] Instance engine : Engine := {|
  draw := fun _ _ s => full s 1;
  shape_draw := fun _ _ _ _ => eq_refl
|}.

(** The identity matrix of size [n]. *)
Definition eye (n : Z) : iarr :=
  {| dims := [n; n];
     data := i ← seq 0 (Z.to_nat n);
             (fun j => if decide (i = j) then 1 else 0) <$> seq 0 (Z.to_nat n) |}.

(** A linear kernel [X Z^T], with the noise on the diagonal of a square
    result. *)
Definition linear_kernel (X Z_ : iarr) (noise : option iarr) : iarr :=
  let k := imatmul X (itranspose Z_) in
  match noise, dims k with
  | Some v, [n; m] =>
      if decide (n = m)
      then elementwise Z.add k (elementwise Z.mul (eye n) v)
      else k
  | _, _ => k
  end.

Definition exact_gp_sample_kernel_params (g : ExactGP) : Py world dict :=
  length_ <~ with_plate "k_param" (kernel_dim g) None
               (sample "k_length" (LogNormal (lit 0) (lit 1)) None);;
  scale <~ sample "k_scale" (LogNormal (lit 0) (lit 1)) None;;
  ret (<["k_length" := VArr length_]> (<["k_scale" := VArr scale]> ∅)).

(** The kernel library knows the kernels ['RBF'], ['Matern'] and
    ['Periodic'] by name. *)
Definition lcm_kernel_raises (k : data_kernel_arg) : option exn :=
  match k with
  | KernelName s =>
      if decide (s ∈ ["RBF"; "Matern"; "Periodic"]) then None
      else Some (KeyError s)
  | KernelFn _ => None
  end.

#[export] Instance package : Package := {|
  get_kernel := fun _ X Z_ _ noise _ => linear_kernel X Z_ noise;
  ExactGP_sample_kernel_params := exact_gp_sample_kernel_params;
  LCMKernel_raises := fun k _ _ _ => lcm_kernel_raises k;
  LCMKernel_call := fun _ X Z_ _ _ _ => linear_kernel X Z_ None
|}.

(** *** Example inputs *)

(** The value that a run returned. *)
Definition value_of {A} (dflt : A) (r : result A) : A :=
  match r with
  | inr a => a
  | inl _ => dflt
  end.

Definition w_empty : world := {| heap := ∅; trace := []; plates := [] |}.

Definition X_train_ex : iarr := {| dims := [2; 2]; data := [1; 0; 0; 1] |}.

Definition y_train_ex : iarr := {| dims := [2]; data := [3; 5] |}.

Definition X_new_ex : iarr := {| dims := [1; 2]; data := [1; 0] |}.

(** The heap after [fit]: the training inputs and targets. *)
Definition w_trained : world :=
  {| heap := <[1%positive := X_train_ex]> (<[2%positive := y_train_ex]> ∅);
     trace := []; plates := [] |}.

(** Other targets, and the heap after a second [fit] of the same model
    object on the same inputs and these targets. *)
Definition y_refit_ex : iarr := {| dims := [2]; data := [30; 50] |}.

Definition w_refit : world :=
  {| heap := <[1%positive := X_train_ex]> (<[2%positive := y_refit_ex]> ∅);
     trace := []; plates := [] |}.

(** A sample of the parameters: identity weights, zero biases, no noise. *)
Definition params_ex : dict :=
  <["w1" := VArr (eye 2)]> (<["b1" := VArr (full [2] 0)]>
  (<["w2" := VArr (eye 2)]> (<["b2" := VArr (full [2] 0)]>
  (<["w3" := VArr (eye 2)]> (<["b3" := VArr (full [2] 0)]>
  (<["noise" := VArr (full [] 0)]> ∅)))))).

(** The constant mean function 1: a column of ones, one per row of [z]. *)
Definition mean_one (z : iarr) (_ : option dict) : iarr :=
  full [hd 0 (dims z); 1] 1.

(** A trained [DKL] model with the default network and the constant mean
    function 1. *)
Definition dkl_ex : DKL :=
  {| dkl_base := {| kernel_dim := 2; kernel := OStr "RBF"; mean_fn := None;
                    kernel_prior := None; mean_fn_prior := None;
                    noise_prior := None; X_train := Some 1%positive;
                    y_train := Some 2%positive |};
     dkl_bnn := bnn;
     dkl_bnn_prior := bnn_prior 2 2;
     latent_prior := None;
     gp_mean_fn := Some mean_one;
     gp_mean_fn_prior := None |}.

(** Training inputs of a multi-task model whose last column holds the task
    indices 0, 1, 1, 2. *)
Definition X_tasks_ex : iarr :=
  {| dims := [4; 2]; data := [10; 0; 11; 1; 12; 1; 13; 2] |}.

Definition w_tasks : world :=
  {| heap := <[1%positive := X_tasks_ex]> ∅; trace := []; plates := [] |}.

(** A multi-task model over task-indexed inputs, with two latent functions
    and neither [num_tasks] nor [rank] specified. *)
Definition mtgp_ex : MultiTaskGP :=
  {| mt_base := {| kernel_dim := 1;
                   kernel := OLCMKernel
                     {| lcm_base_kernel := KernelName "RBF";
                        lcm_shared_input_space := false;
                        lcm_num_tasks := None; lcm_kwargs := ∅ |};
                   mean_fn := None; kernel_prior := None;
                   mean_fn_prior := None; noise_prior := None;
                   X_train := Some 1%positive; y_train := None |};
     num_tasks := None; num_latents := Some 2; rank := None;
     data_kernel_name := Some "RBF"; data_kernel_prior := None;
     task_kernel_prior := None; shared_input := false;
     output_scale := false |}.

(** The same model once [model] has run: three tasks, rank two. *)
Definition mtgp_filled_ex : MultiTaskGP :=
  set_rank (Some 2) (set_num_tasks (Some 3) mtgp_ex).

End Ref.

(** ** The equations of the specification

    The closed-form Gaussian-process posterior and the multilayer
    perceptron, written as the specification words them. *)

Section Spec_equations.
Context `{AL : ArrayLib}.



(** A dense layer [x w + b]. *)
Definition dense (x w b : arr) : arr := add (matmul x w) b.

(** Two hidden layers with tanh activations and a linear output layer. *)
Definition mlp_forward (X w1 b1 w2 b2 w3 b3 : arr) : arr :=
  dense (tanh (dense (tanh (dense X w1 b1)) w2 b2)) w3 b3.


(** A group of hyperparameters: the prior of the user when one was given,
    else the default prior. *)
Definition hyperprior {A} (user : option (Py world A))
    (default : Py world A) : Py world A :=
  match user with
  | Some prior => prior
  | None => default
  end.

(** [f_loc] is [f0] with the mean function at [x] added, the parameters of
    the mean function being drawn from its prior when it has one (which
    takes the world from [w] to [w']); it is [f0] when there is no mean
    function. *)
Definition mean_added (m : option (arr -> option dict -> arr))
    (prior : option (Py world dict)) (f0 x : arr) (w : world)
    (f_loc : arr) (w' : world) : Prop :=
  match m with
  | None => f_loc = f0 /\ w' = w
  | Some m =>
      match prior with
      | None => f_loc = add f0 (squeeze (m x None)) /\ w' = w
      | Some p =>
          exists mp, p w = (inr mp, w') /\
                     f_loc = add f0 (squeeze (m x (Some mp)))
      end
  end.

(** [z] is the embedding [z0], passed through the latent prior when there
    is one. *)
Definition latent_of (lp : option (arr -> Py world arr)) (z0 : arr)
    (w : world) (z : arr) (w' : world) : Prop :=
  match lp with
  | None => z = z0 /\ w' = w
  | Some lp => lp z0 w = (inr z, w')
  end.

(** The number of tasks after a call of [model]: as specified, else (for
    inputs that are not shared) the number [found] of distinct task indices
    in the last column of the training inputs. *)
Definition filled_num_tasks (self : MultiTaskGP) (found : Z) : option Z :=
  match num_tasks self with
  | Some t => Some t
  | None => if shared_input self then None else Some found
  end.

(** The rank after a call of [model]: as specified, else the number of
    tasks minus one. *)
Definition filled_rank (self : MultiTaskGP) (found : Z) : option Z :=
  match rank self with
  | Some r => Some r
  | None => (fun t => t - 1) <$> filled_num_tasks self found
  end.

Definition filled (self : MultiTaskGP) (found : Z) : MultiTaskGP :=
  set_rank (filled_rank self found)
           (set_num_tasks (filled_num_tasks self found) self).

(** A computation that does not assign to the attributes of the object. *)
Definition keeps_self {O A} (c : Py (O * world) A) : Prop :=
  forall s, fst (snd (c s)) = fst s.

(** The dictionary [d] holds under [key] an array of shape [s]. *)
Definition has_shape (d : dict) (key : string) (s : list Z) : Prop :=
  exists a, d !! key = Some (VArr a) /\ shape a = s.

(** The mean part of the outcome of [get_mvn_posterior] (the exception when
    it raises), with the final state. *)
Definition mean_of (r : result (arr * arr) * world) : result arr * world :=
  (match fst r with
   | inl e => inl e
   | inr mc => inr (fst mc)
   end, snd r).

End Spec_equations.

(** ** Further notions used by the properties of the code *)

Section Spec_further.
Context `{AL : ArrayLib}.

(** The names under which [bnn] reads the parameter dictionary, in the
    order in which it reads them. *)
Definition bnn_keys : list string := ["w1"; "b1"; "w2"; "b2"; "w3"; "b3"].

(** A computation that leaves the heap and the open plates as they are and
    only adds sites at the end of the trace, whatever its outcome. *)
Definition appends_only {A} (c : Py world A) : Prop :=
  forall w,
    heap (snd (c w)) = heap w /\ plates (snd (c w)) = plates w /\
    trace w `prefix_of` trace (snd (c w)).

(** The same for a computation that runs next to an object, on the objects
    that satisfy [I]: the computation keeps [I] and only adds sites. *)
Definition appends_only_on {O A} (I : O -> Prop) (c : Py (O * world) A)
  : Prop :=
  forall s,
    I (fst s) ->
    I (fst (snd (c s))) /\
    heap (snd (snd (c s))) = heap (snd s) /\
    plates (snd (snd (c s))) = plates (snd s) /\
    trace (snd s) `prefix_of` trace (snd (snd (c s))).

(** [squeezer] of [_sample_kernel_params]: [x.squeeze()] when there is more
    than one latent function, [x] otherwise. *)
Definition squeezer (L : Z) (x : arr) : arr :=
  if decide (1 < L) then squeeze x else x.

(** The names of the parameters of the data kernel and of the task
    kernel. *)
Definition data_kernel_keys : list string := ["k_length"; "k_scale"; "period"].

Definition task_kernel_keys : list string := ["W"; "v"].

(** The covariance part of the outcome of [get_mvn_posterior] (the
    exception when it raises). *)
Definition cov_of (r : result (arr * arr) * world) : result arr :=
  match fst r with
  | inl e => inl e
  | inr mc => inr (snd mc)
  end.

(** The model with another mean function, and with another prior of the
    mean function. *)
Definition with_gp_mean_fn (m : option (arr -> option dict -> arr))
    (self : DKL) : DKL :=
  {| dkl_base := dkl_base self; dkl_bnn := dkl_bnn self;
     dkl_bnn_prior := dkl_bnn_prior self; latent_prior := latent_prior self;
     gp_mean_fn := m; gp_mean_fn_prior := gp_mean_fn_prior self |}.

Definition with_gp_mean_fn_prior (p : option (Py world dict))
    (self : DKL) : DKL :=
  {| dkl_base := dkl_base self; dkl_bnn := dkl_bnn self;
     dkl_bnn_prior := dkl_bnn_prior self; latent_prior := latent_prior self;
     gp_mean_fn := gp_mean_fn self; gp_mean_fn_prior := p |}.

End Spec_further.

Section Spec_posterior.
Context `{AL : ArrayLib} `{EN : !Engine} `{PK : !Package}.


(** The functions that [jax.jit] has compiled for the model [self]: each is
    the body of the method, with the state of an earlier call. *)
Definition compiled_from (self : DKL) (cache : jit_cache) : Prop :=
  Forall (fun kf => exists w0 : world,
            snd kf = fun X p b => fst (get_mvn_posterior self X p b w0))
         cache.

(** The mean part of the outcome of the decorated [get_mvn_posterior] (the
    exception when it raises), with the final state. *)
Definition jit_mean_of (r : result (arr * arr) * (jit_cache * world))
  : result arr * (jit_cache * world) :=
  (match fst r with
   | inl e => inl e
   | inr mc => inr (fst mc)
   end, snd r).

End Spec_posterior.

(** *** Further example inputs *)

Module Examples.
Import Ref.

(** The parameter sample without the weights of the second layer. *)
Definition params_no_w2_ex : dict := delete "w2" params_ex.

(** The parameter sample without the noise. *)
Definition weights_ex : dict := delete "noise" params_ex.

(** The trained model without mean function. *)
Definition dkl_plain_ex : DKL := with_gp_mean_fn None dkl_ex.

(** A model whose custom prior of the network returns no weights. *)
Definition dkl_no_weights_ex : DKL :=
  {| dkl_base := dkl_base dkl_ex; dkl_bnn := bnn;
     dkl_bnn_prior := ret ∅; latent_prior := None;
     gp_mean_fn := None; gp_mean_fn_prior := None |}.

(** A prior of the kernel parameters that records the site [k_custom]. *)
Definition kernel_prior_ex : Py world dict :=
  v <~ sample "k_custom" (LogNormal (lit 0) (lit 1)) None;;
  ret (<["k_length" := VArr v]> (<["k_scale" := VArr v]> ∅)).

(** A model constructed with that prior of the kernel parameters, the other
    arguments being the defaults. *)
Definition dkl_kernel_prior_ex : DKL :=
  value_of dkl_ex
    (DKL_init 2 2 "RBF" (Some kernel_prior_ex) None None None None None).


(** A multi-task model as the constructor builds it: task-indexed inputs,
    two latent functions. *)
Definition mtgp_constructed_ex : MultiTaskGP :=
  value_of mtgp_ex
    (MultiTaskGP_init 1 (KernelName "RBF") (Some 2) false None None None None
       None None None false ∅).

(** An array without dimensions. *)
Definition scalar_ex : iarr := full [] 0.

(** The completed multi-task model over the periodic kernel. *)
Definition mtgp_periodic_ex : MultiTaskGP :=
  {| mt_base := mt_base mtgp_ex; num_tasks := Some 3; num_latents := Some 1;
     rank := Some 2; data_kernel_name := Some "Periodic";
     data_kernel_prior := None; task_kernel_prior := None;
     shared_input := true; output_scale := false |}.

End Examples.

(** * Properties *)

Section DKL_properties.
Context `{AL : ArrayLib} `{EN : !Engine} `{PK : !Package}.

Lemma param_array (params : dict) key a :
  params !! key = Some (VArr a) -> param params key = inr a.
Proof. intros H. unfold param. rewrite H. reflexivity. Qed.

(** C4: the embedding is the forward pass of a two-hidden-layer MLP with
    tanh activations and a linear output layer: on a dictionary that holds
    the six weights and biases, [bnn] returns
    [matmul(tanh(matmul(tanh(matmul(X, w1) + b1), w2) + b2), w3) + b3]. *)
Theorem bnn_is_mlp_forward (X : arr) (params : dict) w1 b1 w2 b2 w3 b3 :
  params !! "w1" = Some (VArr w1) -> params !! "b1" = Some (VArr b1) ->
  params !! "w2" = Some (VArr w2) -> params !! "b2" = Some (VArr b2) ->
  params !! "w3" = Some (VArr w3) -> params !! "b3" = Some (VArr b3) ->
  bnn X params = inr (mlp_forward X w1 b1 w2 b2 w3 b3) /\
  mlp_forward X w1 b1 w2 b2 w3 b3 =
    add (matmul (tanh (add (matmul (tanh (add (matmul X w1) b1)) w2) b2)) w3) b3.
Proof.
  intros H1 H2 H3 H4 H5 H6. split; [|reflexivity].
  unfold bnn.
  rewrite (param_array _ _ _ H1), (param_array _ _ _ H2),
    (param_array _ _ _ H3), (param_array _ _ _ H4),
    (param_array _ _ _ H5), (param_array _ _ _ H6).
  reflexivity.
Qed.

Lemma load_heap (w : world) l a :
  heap w !! l = Some a -> load l w = (inr a, w).
Proof. intros H. unfold load, bind, get, ret. rewrite H. reflexivity. Qed.

Lemma fresh_loc_unused (h : gmap loc arr) : h !! fresh (dom h) = None.
Proof. apply not_elem_of_dom, is_fresh. Qed.

(** [x -= v] leaves every array of the heap as it is and binds the name to
    a new one. *)
Lemma isub_alloc (w : world) x a v :
  heap w !! x = Some a ->
  exists x' w',
    isub x v w = (inr x', w') /\ heap w !! x' = None /\
    heap w' = <[x' := sub a v]> (heap w) /\
    trace w' = trace w /\ plates w' = plates w.
Proof.
  intros H. exists (fresh (dom (heap w))).
  eexists. unfold isub, bind. rewrite (load_heap _ _ _ H).
  unfold alloc, bind, get, put, ret. simpl.
  split; [reflexivity|]. simpl. auto using fresh_loc_unused.
Qed.



(** C8: the predictive mean does not depend on the [noiseless] flag: two
    runs of [get_mvn_posterior] that differ in the flag only return the same
    mean (or raise the same exception) and end in the same state; the flag
    enters the test-test kernel only. *)
Theorem get_mvn_posterior_mean_ignores_noiseless (self : DKL) (X_new : arr)
    (params : dict) (w : world) :
  mean_of (get_mvn_posterior self X_new params true w) =
  mean_of (get_mvn_posterior self X_new params false w).
Proof.
  unfold mean_of, get_mvn_posterior, isub, alloc, load, operand, lift_result,
    bind, get, put, ret, raise.
  destruct (param params "noise"); [reflexivity|].
  destruct (X_train (dkl_base self)); [|reflexivity].
  destruct (heap w !! l); [|reflexivity].
  destruct (dkl_bnn self a0 params); [reflexivity|].
  destruct (dkl_bnn self X_new params); [reflexivity|].
  destruct (y_train (dkl_base self)) as [ly|], (gp_mean_fn self);
    try reflexivity.
  - destruct (heap w !! ly); [|reflexivity]. simpl.
    rewrite lookup_insert_eq. reflexivity.
  - destruct (heap w !! ly); reflexivity.
Qed.

Lemma get_mvn_posterior_heap_grows (self : DKL) (X_new : arr)
    (params : dict) (noiseless : bool) (w : world) :
  heap w ⊆ heap (snd (get_mvn_posterior self X_new params noiseless w)).
Proof.
  unfold get_mvn_posterior, isub, alloc, load, operand, lift_result,
    bind, get, put, ret, raise.
  destruct (param params "noise"); [reflexivity|].
  destruct (X_train (dkl_base self)); [|reflexivity].
  destruct (heap w !! l); [|reflexivity].
  destruct (dkl_bnn self a0 params); [reflexivity|].
  destruct (dkl_bnn self X_new params); [reflexivity|].
  destruct (y_train (dkl_base self)) as [ly|], (gp_mean_fn self);
    try reflexivity.
  - destruct (heap w !! ly); [|reflexivity]. simpl.
    rewrite lookup_insert_eq. simpl.
    apply insert_subseteq, fresh_loc_unused.
  - destruct (heap w !! ly); reflexivity.
Qed.

(** C10: [get_mvn_posterior] leaves the stored training data as it is: the
    arrays that [self.X_train] and [self.y_train] refer to are the same
    after the call as before, also when [gp_mean_fn] is given; every array
    of the heap is kept, and [y_residual -= ...] binds the name to a new
    array. *)
Theorem get_mvn_posterior_keeps_training_data (self : DKL) (X_new : arr)
    (params : dict) (noiseless : bool) (w : world) lx ly Xt yt :
  X_train (dkl_base self) = Some lx -> heap w !! lx = Some Xt ->
  y_train (dkl_base self) = Some ly -> heap w !! ly = Some yt ->
  let w' := snd (get_mvn_posterior self X_new params noiseless w) in
  heap w' !! lx = Some Xt /\ heap w' !! ly = Some yt /\ heap w ⊆ heap w'.
Proof.
  intros _ HXt _ Hyt w'.
  pose proof (get_mvn_posterior_heap_grows self X_new params noiseless w) as Hsub.
  fold w' in Hsub.
  split; [|split]; [| |exact Hsub].
  - eapply lookup_weaken; eassumption.
  - eapply lookup_weaken; eassumption.
Qed.

End DKL_properties.

(** ** Shapes of drawn values *)

Section Shape_properties.
Context `{AL : ArrayLib} `{EN : !Engine}.

Lemma broadcast_rev_diag (a : list Z) : broadcast_rev a a = Some a.
Proof.
  induction a as [|x a IH]; [reflexivity|].
  simpl. rewrite IH. rewrite decide_True by reflexivity. reflexivity.
Qed.

Lemma broadcast_rev_nil_r (a : list Z) : broadcast_rev a [] = Some a.
Proof. destruct a; reflexivity. Qed.

Lemma broadcast_shapes_diag (a : list Z) : broadcast_shapes a a = Some a.
Proof.
  unfold broadcast_shapes. rewrite broadcast_rev_diag. simpl.
  rewrite reverse_involutive. reflexivity.
Qed.

Lemma broadcast_shapes_nil_r (a : list Z) : broadcast_shapes a [] = Some a.
Proof.
  unfold broadcast_shapes. change (reverse []) with (@nil Z).
  rewrite broadcast_rev_nil_r. simpl.
  rewrite reverse_involutive. reflexivity.
Qed.


(** A distribution with scalar parameters takes the shape of the plates. *)
Lemma sample_shape_scalar (ps : list plate) (d : dist) :
  batch_event d = Some ([], []) ->
  sample_shape ps d = Some (plates_batch_shape ps).
Proof.
  intros H. unfold sample_shape. rewrite H. simpl.
  rewrite broadcast_shapes_nil_r. simpl. rewrite app_nil_r. reflexivity.
Qed.

Lemma batch_event_LogNormal_lit (m s : Z) :
  batch_event (LogNormal (lit m) (lit s)) = Some ([], []).
Proof. simpl. rewrite !shape_lit. reflexivity. Qed.

Lemma sample_observed (name : string) (fn : dist) (v : arr) (w : world) :
  sample name fn (Some v) w =
    (inr v, push_site (sample_site name fn (Some v) (plates w) v) w).
Proof. reflexivity. Qed.

Lemma sample_drawn (name : string) (fn : dist) (w : world) (s : list Z) :
  sample_shape (plates w) fn = Some s ->
  sample name fn None w =
    (inr (draw name fn s),
     push_site (sample_site name fn None (plates w) (draw name fn s)) w).
Proof.
  intros H. unfold sample, bind, get. simpl. rewrite H. reflexivity.
Qed.

End Shape_properties.

(** ** The DKL model *)

Section DKL_model_properties.
Context `{AL : ArrayLib} `{EN : !Engine} `{PK : !Package}.

(** A run of [DKL.model] in which the collaborators return: the weights
    [bnn_params] from the prior of the network, the embedding [z0], the
    prior mean [f_loc], the latent variable [z] and the kernel parameters
    [kp].  The run ends with the site of the noise and the observed site of
    [y]. *)
Lemma DKL_model_run (self : DKL) (X y : arr) (w0 : world)
    bnn_params w1 z0 n sh f_loc w2 z w3 kp w4 :
  dkl_bnn_prior self w0 = (inr bnn_params, w1) ->
  dkl_bnn self X bnn_params = inr z0 ->
  shape z0 = n :: sh ->
  mean_added (gp_mean_fn self) (gp_mean_fn_prior self) (zeros [n]) z0
             w1 f_loc w2 ->
  latent_of (latent_prior self) z0 w2 z w3 ->
  hyperprior (kernel_prior (dkl_base self))
             (ExactGP_sample_kernel_params (dkl_base self)) w3 = (inr kp, w4) ->
  let noise := draw "noise" (LogNormal (lit 0) (lit 1))
                    (plates_batch_shape (plates w4)) in
  let k := get_kernel (kernel (dkl_base self)) z z kp (Some noise) None in
  DKL_model self X y w0 =
    (inr tt,
     push_site (sample_site "y" (MultivariateNormal f_loc k) (Some y)
                            (plates w4) y)
       (push_site (sample_site "noise" (LogNormal (lit 0) (lit 1)) None
                               (plates w4) noise) w4)).
Proof.
  unfold mean_added, latent_of, hyperprior.
  intros Hprior Hbnn Hshape Hmean Hlatent Hkp. cbv zeta.
  unfold DKL_model.
  unfold bind at 1. rewrite Hprior.
  unfold bind at 1. unfold lift_result at 1. rewrite Hbnn.
  unfold bind at 1. unfold shape0 at 1. rewrite Hshape. unfold ret at 1.
  assert (Hm :
    match gp_mean_fn self with
    | Some m =>
        match gp_mean_fn_prior self with
        | Some prior =>
            mp <~ prior;; ret (add (zeros [n]) (squeeze (m z0 (Some mp))))
        | None => ret (add (zeros [n]) (squeeze (m z0 None)))
        end
    | None => ret (zeros [n])
    end w1 = (inr f_loc, w2)).
  { destruct (gp_mean_fn self) as [m|].
    - destruct (gp_mean_fn_prior self) as [prior|].
      + destruct Hmean as (mp & Hp & ->). unfold bind. rewrite Hp. reflexivity.
      + destruct Hmean as [-> ->]. reflexivity.
    - destruct Hmean as [-> ->]. reflexivity. }
  unfold bind at 1. rewrite Hm. clear Hm.
  assert (Hl :
    match latent_prior self with
    | Some lp => lp z0
    | None => ret z0
    end w2 = (inr z, w3)).
  { destruct (latent_prior self) as [lp|]; [exact Hlatent|].
    destruct Hlatent as [-> ->]. reflexivity. }
  unfold bind at 1. rewrite Hl. clear Hl.
  unfold bind at 1. rewrite Hkp.
  unfold bind at 1.
  rewrite (sample_drawn "noise" _ w4 (plates_batch_shape (plates w4)))
    by apply sample_shape_scalar, batch_event_LogNormal_lit.
  unfold bind at 1. rewrite sample_observed. reflexivity.
Qed.

(** C2: in [DKL.model] the likelihood of [y] is the multivariate normal
    whose covariance is the GP kernel on the embedding [z] of the inputs
    (the output of the network, passed through [latent_prior] when there is
    one), not on the inputs, with the kernel parameters and the noise that
    were sampled; [y] is the observation of that site, the last one of the
    trace; and its mean [f_loc] is the zero vector unless a GP mean function
    is given. *)
Theorem DKL_model_likelihood (self : DKL) (X y : arr) (w0 : world)
    bnn_params w1 z0 n sh f_loc w2 z w3 kp w4 :
  dkl_bnn_prior self w0 = (inr bnn_params, w1) ->
  dkl_bnn self X bnn_params = inr z0 ->
  shape z0 = n :: sh ->
  mean_added (gp_mean_fn self) (gp_mean_fn_prior self) (zeros [n]) z0
             w1 f_loc w2 ->
  latent_of (latent_prior self) z0 w2 z w3 ->
  hyperprior (kernel_prior (dkl_base self))
             (ExactGP_sample_kernel_params (dkl_base self)) w3 = (inr kp, w4) ->
  exists noise w',
    DKL_model self X y w0 = (inr tt, w') /\
    last (trace w') =
      Some (sample_site "y"
              (MultivariateNormal f_loc
                 (get_kernel (kernel (dkl_base self)) z z kp (Some noise) None))
              (Some y) (plates w4) y) /\
    sample_site "noise" (LogNormal (lit 0) (lit 1)) None (plates w4) noise
      ∈ trace w' /\
    (gp_mean_fn self = None -> f_loc = zeros [n]) /\
    (latent_prior self = None -> z = z0).
Proof.
  intros Hprior Hbnn Hshape Hmean Hlatent Hkp.
  eexists _, _. split; [|split; [|split; [|split]]].
  - eapply DKL_model_run; eassumption.
  - simpl. apply last_snoc.
  - simpl. apply elem_of_app. left. apply elem_of_app. right.
    apply list_elem_of_singleton. reflexivity.
  - intros Hnone. unfold mean_added in Hmean. rewrite Hnone in Hmean.
    apply Hmean.
  - intros Hnone. unfold latent_of in Hlatent. rewrite Hnone in Hlatent.
    apply Hlatent.
Qed.

End DKL_model_properties.

(** ** Prior dictionaries *)

Section Prior_properties.
Context `{AL : ArrayLib} `{EN : !Engine} `{PK : !Package}.





Lemma batch_event_task_W (s : list Z) :
  Forall (Z.le 0) s ->
  batch_event (Normal (zeros s) (mul (lit 10) (ones s))) = Some (s, []).
Proof.
  intros Hs. cbn [batch_event].
  rewrite shape_zeros, shape_mul_lit, shape_ones by assumption.
  rewrite broadcast_shapes_diag. reflexivity.
Qed.

Lemma batch_event_task_v (s : list Z) :
  Forall (Z.le 0) s ->
  batch_event (LogNormal (zeros s) (ones s)) = Some (s, []).
Proof.
  intros Hs. cbn [batch_event].
  rewrite shape_zeros, shape_ones by assumption.
  rewrite broadcast_shapes_diag. reflexivity.
Qed.

(** Inside one plate of size [L] at dimension [-1], a distribution whose
    batch shape starts with [L] and whose other dimensions are declared as
    the event keeps its shape. *)
Lemma sample_shape_in_plate (name : string) (L : Z) (s : list Z) (d : dist) :
  batch_event d = Some (L :: s, []) ->
  sample_shape [{| plate_name := name; plate_size := L; plate_dim := -1 |}]
               (Independent d (length s)) = Some (L :: s).
Proof.
  intros H. unfold sample_shape. cbn [batch_event]. rewrite H.
  cbn [mbind option_bind fst snd length].
  rewrite decide_True by lia.
  replace (S (length s) - length s)%nat with 1%nat by lia.
  rewrite app_nil_r. cbn [take drop mbind option_bind fst snd].
  change (plates_batch_shape _) with [L].
  rewrite broadcast_shapes_diag. reflexivity.
Qed.



End Prior_properties.

(** ** The multi-task model *)

Section MultiTaskGP_properties.
Context `{AL : ArrayLib} `{EN : !Engine} `{PK : !Package}.

Lemma keeps_self_ret {O A} (a : A) : keeps_self (O := O) (ret a).
Proof. intros s. reflexivity. Qed.

Lemma keeps_self_raise {O A} (e : exn) : keeps_self (O := O) (A := A) (raise e).
Proof. intros s. reflexivity. Qed.

Lemma keeps_self_get_self {O} : keeps_self (O := O) get_self.
Proof. intros s. reflexivity. Qed.

Lemma keeps_self_lift_world {O A} (c : Py world A) :
  keeps_self (O := O) (lift_world c).
Proof. intros s. unfold lift_world. destruct (c (snd s)). reflexivity. Qed.

Lemma keeps_self_bind {O A B} (c : Py (O * world) A) (k : A -> Py (O * world) B) :
  keeps_self c -> (forall a, keeps_self (k a)) -> keeps_self (bind c k).
Proof.
  intros Hc Hk s. unfold bind. specialize (Hc s).
  destruct (c s) as [[e|a] s']; [exact Hc|].
  rewrite Hk. exact Hc.
Qed.

Ltac keeps_self_tac :=
  repeat first
    [ apply keeps_self_ret | apply keeps_self_raise | apply keeps_self_get_self
    | apply keeps_self_lift_world
    | apply keeps_self_bind; [|intros]
    | match goal with
      | |- keeps_self (match ?x with _ => _ end) => destruct x
      | |- keeps_self (operand _) => unfold operand
      | |- keeps_self (as_int _) => unfold as_int
      | |- keeps_self (shape0 _) => unfold shape0
      end ].

(** [model] first completes the configuration; what follows does not
    assign to the object, and ends with the site of [y] when the
    collaborators return. *)
Lemma MultiTaskGP_model_parts (X : arr) (y : option arr) (kwargs : dict) :
  exists tail : arr -> Py (MultiTaskGP * world) unit,
    MultiTaskGP_model X y kwargs =
      (self <~ get_self;;
       n <~ shape0 X;;
       f_loc <~ (if shared_input self
                 then T <~ as_int (num_tasks self);; ret (zeros [T * n])
                 else ret (zeros [n]));;
       (if negb (shared_input self) && bool_decide (num_tasks self = None)
        then l <~ operand (X_train (mt_base self));;
             X_train_ <~ lift_world (load l);;
             update_self
               (set_num_tasks (Some (num_unique (last_column X_train_))))
        else ret tt);;;
       self <~ get_self;;
       (match rank self with
        | None => T <~ as_int (num_tasks self);;
                  update_self (set_rank (Some (T - 1)))
        | Some _ => ret tt
        end);;;
       tail f_loc) /\
    (forall f_loc, keeps_self (tail f_loc)) /\
    (forall f0 self w0 yv lcm dkp w1 tkp w2 noise w3 f_loc w4,
       y = Some yv ->
       match data_kernel_prior self with
       | Some prior => prior
       | None => _sample_kernel_params self
       end w0 = (inr dkp, w1) ->
       match task_kernel_prior self with
       | Some prior => prior
       | None => _sample_task_kernel_params self
       end w1 = (inr tkp, w2) ->
       match noise_prior (mt_base self) with
       | Some prior => prior
       | None =>
           T <~ as_int (num_tasks self);;
           sample "noise" (Independent (LogNormal (zeros [T]) (ones [T])) 1)
                  None
       end w2 = (inr noise, w3) ->
       kernel (mt_base self) = OLCMKernel lcm ->
       match mean_fn (mt_base self) with
       | None => f_loc = f0 /\ w4 = w3
       | Some m =>
           match mean_fn_prior (mt_base self) with
           | None => f_loc = add f0 (squeeze (m X None)) /\ w4 = w3
           | Some prior =>
               exists mp, prior w3 = (inr mp, w4) /\
                          f_loc = add f0 (squeeze (m X (Some mp)))
           end
       end ->
       tail f0 (self, w0) =
         (inr tt,
          (self,
           push_site
             (sample_site "y"
                (MultivariateNormal f_loc
                   (LCMKernel_call lcm X X (tkp ∪ dkp) noise kwargs))
                (Some yv) (plates w4) yv) w4))).
Proof.
  eexists. split; [unfold MultiTaskGP_model; reflexivity|].
  split.
  - intros f_loc. cbv beta. keeps_self_tac.
  - intros f0 self w0 yv lcm dkp w1 tkp w2 noise w3 f_loc w4
      -> Hdk Htk Hnoise Hkernel Hmean.
    cbv beta.
    unfold bind at 1. unfold get_self at 1. cbn [fst snd].
    unfold bind at 1. unfold lift_world at 1. cbn [fst snd]. rewrite Hdk.
    unfold bind at 1. unfold lift_world at 1. cbn [fst snd]. rewrite Htk.
    unfold bind at 1. unfold lift_world at 1. cbn [fst snd]. rewrite Hnoise.
    unfold bind at 1. rewrite Hkernel. unfold ret at 1.
    assert (Hm :
      match mean_fn (mt_base self) with
      | Some m =>
          match mean_fn_prior (mt_base self) with
          | Some prior =>
              mp <~ lift_world prior;; ret (add f0 (squeeze (m X (Some mp))))
          | None => ret (add f0 (squeeze (m X None)))
          end
      | None => ret f0
      end (self, w3) = (inr f_loc, (self, w4))).
    { destruct (mean_fn (mt_base self)) as [m|].
      - destruct (mean_fn_prior (mt_base self)) as [prior|].
        + destruct Hmean as (mp & Hp & ->).
          unfold bind, lift_world. cbn [fst snd]. rewrite Hp. reflexivity.
        + destruct Hmean as [-> ->]. reflexivity.
      - destruct Hmean as [-> ->]. reflexivity. }
    unfold bind at 1. rewrite Hm. clear Hm.
    unfold bind at 1. unfold lift_world at 1. cbn [fst snd].
    rewrite sample_observed. reflexivity.
Qed.


Lemma MultiTaskGP_model_fills_in (X : arr) (y : option arr) (kwargs : dict)
    (self : MultiTaskGP) (w : world) n sh found :
  shape X = n :: sh ->
  (shared_input self = true -> is_Some (num_tasks self)) ->
  (shared_input self = false -> num_tasks self = None ->
   exists l Xt, X_train (mt_base self) = Some l /\ heap w !! l = Some Xt /\
                num_unique (last_column Xt) = found) ->
  fst (snd (MultiTaskGP_model X y kwargs (self, w))) = filled self found.
Proof.
  intros Hshape Hshared Hfound.
  destruct (MultiTaskGP_model_parts X y kwargs) as (tail & -> & Htail & _).
  unfold filled, filled_rank, filled_num_tasks.
  unfold bind, get_self, shape0, as_int, operand, lift_world, update_self, ret,
    raise. cbn [fst snd]. rewrite Hshape.
  destruct (shared_input self) eqn:Hs; cbn [negb andb].
  - destruct (Hshared eq_refl) as [t Ht]. rewrite Ht.
    destruct (rank self) eqn:Hr; simpl; rewrite ?Hr, ?Ht; simpl;
      rewrite Htail; destruct self; simpl in *; subst; reflexivity.
  - destruct (num_tasks self) as [t|] eqn:Ht; simpl.
    + destruct (rank self) eqn:Hr; simpl; rewrite ?Hr, ?Ht; simpl;
        rewrite Htail; destruct self; simpl in *; subst; reflexivity.
    + destruct (Hfound eq_refl eq_refl) as (l & Xt & HX & HXt & <-).
      rewrite HX. simpl. rewrite (load_heap _ _ _ HXt). simpl.
      destruct (rank self) eqn:Hr; simpl; rewrite ?Hr, ?Ht; simpl;
        rewrite Htail; destruct self; simpl in *; subst; reflexivity.
Qed.

(** What is specified stays: a call of [model] changes neither the number
    of latent functions nor a number of tasks or a rank that is set, and
    nothing else of the object. *)
Lemma MultiTaskGP_model_persists (X : arr) (y : option arr) (kwargs : dict)
    (self : MultiTaskGP) (w : world) :
  let self' := fst (snd (MultiTaskGP_model X y kwargs (self, w))) in
  exists nt rk,
    self' = set_rank rk (set_num_tasks nt self) /\
    (forall t, num_tasks self = Some t -> nt = Some t) /\
    (forall r, rank self = Some r -> rk = Some r).
Proof.
  cbv zeta.
  destruct (MultiTaskGP_model_parts X y kwargs) as (tail & -> & Htail & _).
  unfold bind, get_self, shape0, as_int, operand, lift_world, update_self, ret,
    raise. cbn [fst snd].
  assert (Hid : forall s : MultiTaskGP,
            s = set_rank (rank s) (set_num_tasks (num_tasks s) s))
    by (intros []; reflexivity).
  destruct (shape X) as [|n sh].
  { exists (num_tasks self), (rank self). simpl. auto. }
  destruct (shared_input self) eqn:Hs, (num_tasks self) as [t|] eqn:Ht; simpl;
    try (destruct (X_train (mt_base self)) as [l|]; simpl;
         [unfold load, bind, get, ret, raise; simpl;
          destruct (heap w !! l); simpl|]);
    rewrite ?Ht; destruct (rank self) eqn:Hr; simpl; rewrite ?Hr, ?Ht; simpl;
    rewrite ?Htail; simpl;
    destruct self; simpl in *; subst;
    (eexists _, _; split;
     [unfold set_rank, set_num_tasks; simpl; reflexivity
     |split; intros; congruence]).
Qed.


(** A run of [MultiTaskGP.model] in which the collaborators return. *)
Lemma MultiTaskGP_model_run (X yv : arr) (kwargs : dict)
    (self : MultiTaskGP) (w0 : world) n sh T found
    lcm dkp w1 tkp w2 noise w3 f_loc w4 :
  shape X = n :: sh ->
  (shared_input self = true -> num_tasks self = Some T) ->
  (shared_input self = false -> num_tasks self = None ->
   exists l Xt, X_train (mt_base self) = Some l /\ heap w0 !! l = Some Xt /\
                num_unique (last_column Xt) = found) ->
  let self' := filled self found in
  hyperprior (data_kernel_prior self') (_sample_kernel_params self') w0
    = (inr dkp, w1) ->
  hyperprior (task_kernel_prior self') (_sample_task_kernel_params self') w1
    = (inr tkp, w2) ->
  hyperprior (noise_prior (mt_base self'))
    (T' <~ as_int (num_tasks self');;
     sample "noise" (Independent (LogNormal (zeros [T']) (ones [T'])) 1) None)
    w2 = (inr noise, w3) ->
  kernel (mt_base self') = OLCMKernel lcm ->
  mean_added (mean_fn (mt_base self')) (mean_fn_prior (mt_base self'))
             (zeros [if shared_input self then T * n else n]) X w3 f_loc w4 ->
  MultiTaskGP_model X (Some yv) kwargs (self, w0) =
    (inr tt,
     (self',
      push_site
        (sample_site "y"
           (MultivariateNormal f_loc
              (LCMKernel_call lcm X X (tkp ∪ dkp) noise kwargs))
           (Some yv) (plates w4) yv) w4)).
Proof.
  intros Hshape Hshared Hfound self' Hdk Htk Hnoise Hkernel Hmean.
  destruct (MultiTaskGP_model_parts X (Some yv) kwargs)
    as (tail & -> & _ & Htail).
  specialize (Htail (zeros [if shared_input self then T * n else n])
                self' w0 yv lcm dkp w1 tkp w2 noise w3 f_loc w4 eq_refl
                Hdk Htk Hnoise Hkernel Hmean).
  revert Htail. subst self'. clear Hdk Htk Hnoise Hkernel Hmean.
  unfold filled, filled_rank, filled_num_tasks.
  unfold bind, get_self, shape0, as_int, operand, lift_world, update_self, ret,
    raise. cbn [fst snd]. rewrite Hshape.
  destruct (shared_input self) eqn:Hs; cbn [negb andb].
  - pose proof (Hshared eq_refl) as Ht. rewrite Ht.
    destruct (rank self) eqn:Hr; simpl; rewrite ?Hr, ?Ht; simpl;
      intros <-; f_equal; destruct self; simpl in *; subst; reflexivity.
  - destruct (num_tasks self) as [t|] eqn:Ht; simpl.
    + destruct (rank self) eqn:Hr; simpl; rewrite ?Hr, ?Ht; simpl;
        intros <-; f_equal; destruct self; simpl in *; subst; reflexivity.
    + destruct (Hfound eq_refl eq_refl) as (l & Xt & HX & HXt & <-).
      rewrite HX. simpl. rewrite (load_heap _ _ _ HXt). simpl.
      destruct (rank self) eqn:Hr; simpl; rewrite ?Hr, ?Ht; simpl;
        intros <-; f_equal; destruct self; simpl in *; subst; reflexivity.
Qed.

(** C5: in [MultiTaskGP.model] the prior mean [f_loc] is the zero vector
    of length [num_tasks * X.shape[0]] when the input space is shared and of
    length [X.shape[0]] otherwise, with the mean function at [X] added when
    one is given; the covariance is the LCM kernel on [X] with the data
    kernel and task kernel parameters merged into one dictionary and with
    the sampled noise; and [y] is the observation of the site of the
    multivariate normal with that mean and covariance, the last site of the
    trace. *)
Theorem MultiTaskGP_model_likelihood (X yv : arr) (kwargs : dict)
    (self : MultiTaskGP) (w0 : world) n sh T found
    lcm dkp w1 tkp w2 noise w3 f_loc w4 :
  shape X = n :: sh ->
  (shared_input self = true -> num_tasks self = Some T) ->
  (shared_input self = false -> num_tasks self = None ->
   exists l Xt, X_train (mt_base self) = Some l /\ heap w0 !! l = Some Xt /\
                num_unique (last_column Xt) = found) ->
  let self' := filled self found in
  hyperprior (data_kernel_prior self') (_sample_kernel_params self') w0
    = (inr dkp, w1) ->
  hyperprior (task_kernel_prior self') (_sample_task_kernel_params self') w1
    = (inr tkp, w2) ->
  hyperprior (noise_prior (mt_base self'))
    (T' <~ as_int (num_tasks self');;
     sample "noise" (Independent (LogNormal (zeros [T']) (ones [T'])) 1) None)
    w2 = (inr noise, w3) ->
  kernel (mt_base self') = OLCMKernel lcm ->
  let len := if shared_input self then T * n else n in
  mean_added (mean_fn (mt_base self')) (mean_fn_prior (mt_base self'))
             (zeros [len]) X w3 f_loc w4 ->
  exists (kernel_params : dict) s',
    MultiTaskGP_model X (Some yv) kwargs (self, w0) = (inr tt, s') /\
    last (trace (snd s')) =
      Some (sample_site "y"
              (MultivariateNormal f_loc
                 (LCMKernel_call lcm X X kernel_params noise kwargs))
              (Some yv) (plates w4) yv) /\
    (forall key, kernel_params !! key =
                 match tkp !! key with
                 | Some v => Some v
                 | None => dkp !! key
                 end) /\
    (mean_fn (mt_base self) = None -> f_loc = zeros [len]) /\
    (0 <= len -> shape (zeros [len]) = [len]).
Proof.
  intros Hshape Hshared Hfound self' Hdk Htk Hnoise Hkernel len Hmean.
  exists (tkp ∪ dkp). eexists.
  split; [|split; [|split; [|split]]].
  - eapply MultiTaskGP_model_run; eassumption.
  - simpl. apply last_snoc.
  - intros key. rewrite lookup_union.
    destruct (tkp !! key), (dkp !! key); reflexivity.
  - intros Hnone. unfold mean_added in Hmean. simpl in Hmean.
    rewrite Hnone in Hmean. apply Hmean.
  - intros Hlen. apply shape_zeros. repeat constructor. exact Hlen.
Qed.

(** What a constructor call that returns has checked and built. *)
Lemma MultiTaskGP_init_returns
    input_dim data_kernel num_latents_ shared_input_space num_tasks_
    rank_ mean_fn_ data_kernel_prior_ mean_fn_prior_ noise_prior_
    task_kernel_prior_ output_scale_ kwargs self :
  MultiTaskGP_init input_dim data_kernel num_latents_ shared_input_space
    num_tasks_ rank_ mean_fn_ data_kernel_prior_ mean_fn_prior_
    noise_prior_ task_kernel_prior_ output_scale_ kwargs = inr self ->
  LCMKernel_raises data_kernel shared_input_space num_tasks_ kwargs = None /\
  (if shared_input_space then is_Some num_tasks_ else is_Some num_latents_) /\
  self =
    {| mt_base :=
         set_kernel
           (OLCMKernel {| lcm_base_kernel := data_kernel;
                          lcm_shared_input_space := shared_input_space;
                          lcm_num_tasks := num_tasks_;
                          lcm_kwargs := kwargs |})
           (ExactGP_init [OInt input_dim; ONone; of_option OMeanFn mean_fn_;
                          ONone; of_option OPrior mean_fn_prior_;
                          of_option ONoisePrior noise_prior_]);
       num_tasks := num_tasks_;
       num_latents := match num_latents_ with
                      | None => num_tasks_
                      | Some l => Some l
                      end;
       rank := rank_;
       data_kernel_name := match data_kernel with
                           | KernelName s => Some s
                           | KernelFn _ => None
                           end;
       data_kernel_prior := data_kernel_prior_;
       task_kernel_prior := task_kernel_prior_;
       shared_input := shared_input_space;
       output_scale := output_scale_ |}.
Proof.
  unfold MultiTaskGP_init, rbind.
  destruct (LCMKernel_raises data_kernel shared_input_space num_tasks_ kwargs),
    shared_input_space, num_tasks_ as [t|], num_latents_ as [l|];
    intros Hinit; inversion Hinit; subst; eauto.
Qed.

(** C9: [MultiTaskGP] fills in what the configuration leaves out by
    assigning to the object.  The constructor sets [num_latents] to
    [num_tasks] when it is [None]; a call of [model] sets [rank] to
    [num_tasks - 1] when it is [None] and, when the input space is not
    shared and [num_tasks] is [None], sets [num_tasks] to the number of
    distinct task indices in the last column of [X_train]; what is set is
    kept by every later call. *)
Theorem MultiTaskGP_fills_in_configuration :
  (forall input_dim data_kernel num_latents_ shared_input_space num_tasks_
          rank_ mean_fn_ data_kernel_prior_ mean_fn_prior_ noise_prior_
          task_kernel_prior_ output_scale_ kwargs self,
     MultiTaskGP_init input_dim data_kernel num_latents_ shared_input_space
       num_tasks_ rank_ mean_fn_ data_kernel_prior_ mean_fn_prior_
       noise_prior_ task_kernel_prior_ output_scale_ kwargs = inr self ->
     num_latents self = match num_latents_ with
                        | None => num_tasks_
                        | Some l => Some l
                        end /\
     is_Some (num_latents self) /\
     num_tasks self = num_tasks_ /\ rank self = rank_) /\
  (forall (X : arr) (y : option arr) (kwargs : dict) (self : MultiTaskGP)
          (w : world) n sh found,
     shape X = n :: sh ->
     (shared_input self = true -> is_Some (num_tasks self)) ->
     (shared_input self = false -> num_tasks self = None ->
      exists l Xt, X_train (mt_base self) = Some l /\ heap w !! l = Some Xt /\
                   num_unique (last_column Xt) = found) ->
     let self' := fst (snd (MultiTaskGP_model X y kwargs (self, w))) in
     self' = filled self found /\
     (shared_input self = false -> num_tasks self = None ->
      num_tasks self' = Some found) /\
     (rank self = None ->
      exists t, num_tasks self' = Some t /\ rank self' = Some (t - 1)) /\
     (forall X2 y2 kwargs2 w2,
        fst (snd (MultiTaskGP_model X2 y2 kwargs2 (self', w2))) = self')) /\
  (forall (X : arr) (y : option arr) (kwargs : dict) (self : MultiTaskGP)
          (w : world),
     let self' := fst (snd (MultiTaskGP_model X y kwargs (self, w))) in
     num_latents self' = num_latents self /\
     (forall t, num_tasks self = Some t -> num_tasks self' = Some t) /\
     (forall r, rank self = Some r -> rank self' = Some r)).
Proof.
  split; [|split].
  - intros input_dim data_kernel num_latents_ shared_input_space num_tasks_
      rank_ mean_fn_ data_kernel_prior_ mean_fn_prior_ noise_prior_
      task_kernel_prior_ output_scale_ kwargs self Hinit.
    apply MultiTaskGP_init_returns in Hinit as (_ & Hcfg & ->).
    cbn [num_latents num_tasks rank].
    destruct shared_input_space, num_tasks_ as [t|], num_latents_ as [l|];
      simpl in Hcfg; try (destruct Hcfg as [? ?]; discriminate); eauto 10.
  - intros X y kwargs self w n sh found Hshape Hshared Hfound self'.
    assert (Hfill : self' = filled self found)
      by (eapply MultiTaskGP_model_fills_in; eassumption).
    assert (Hnt : is_Some (num_tasks self')).
    { rewrite Hfill. unfold filled, filled_num_tasks. simpl.
      destruct (num_tasks self) eqn:Ht; [eauto|].
      destruct (shared_input self) eqn:Hs; [|eauto].
      destruct (Hshared eq_refl) as [? ?]; discriminate. }
    assert (Hrk : is_Some (rank self')).
    { rewrite Hfill in Hnt |- *. unfold filled, filled_rank in *. simpl in *.
      destruct (rank self); [eauto|].
      destruct Hnt as [t ->]. simpl. eauto. }
    split; [exact Hfill|]. split; [|split].
    + intros Hs Ht. rewrite Hfill. unfold filled, filled_num_tasks. simpl.
      rewrite Ht, Hs. reflexivity.
    + intros Hr. rewrite Hfill. unfold filled, filled_rank. simpl.
      rewrite Hr. rewrite Hfill in Hnt. simpl in Hnt.
      destruct Hnt as [t Ht]. exists t. rewrite Ht. split; reflexivity.
    + intros X2 y2 kwargs2 w2.
      destruct (MultiTaskGP_model_persists X2 y2 kwargs2 self' w2)
        as (nt & rk & -> & Hnt' & Hrk').
      destruct Hnt as [t Ht], Hrk as [r Hr].
      rewrite (Hnt' t Ht), (Hrk' r Hr).
      destruct self'; simpl in *; subst; reflexivity.
  - intros X y kwargs self w self'.
    destruct (MultiTaskGP_model_persists X y kwargs self w)
      as (nt & rk & Heq & Hnt & Hrk).
    fold self' in Heq. rewrite Heq. simpl.
    split; [reflexivity|]. split; assumption.
Qed.

End MultiTaskGP_properties.

(** ** Construction and hyperparameters *)

Section Construction_properties.
Context `{AL : ArrayLib} `{EN : !Engine} `{PK : !Package}.

(** C6: the kernel hyperparameters of [DKL] do not come from the prior of
    the user.  The constructor passes [kernel_prior] to the base class as
    its third positional argument, which is the parameter [mean_fn], so
    that the attribute [kernel_prior] of a constructed model is [None]
    whatever prior [p] was given; and in every run of [model] in which the
    collaborators return, the kernel of the likelihood of [y] receives the
    parameters [kp] that the default prior of the base class has sampled. *)
Theorem DKL_kernel_prior_is_not_used
    input_dim z_dim kernel_ (p : Py world dict) gp_mean_fn_ gp_mean_fn_prior_
    bnn_fn bnn_fn_prior latent_prior_ (self : DKL) :
  DKL_init input_dim z_dim kernel_ (Some p) gp_mean_fn_ gp_mean_fn_prior_
    bnn_fn bnn_fn_prior latent_prior_ = inr self ->
  kernel_prior (dkl_base self) = None /\
  (forall (X y : arr) (w0 : world) bnn_params w1 z0 n sh f_loc w2 z w3 kp w4,
     dkl_bnn_prior self w0 = (inr bnn_params, w1) ->
     dkl_bnn self X bnn_params = inr z0 ->
     shape z0 = n :: sh ->
     mean_added (gp_mean_fn self) (gp_mean_fn_prior self) (zeros [n]) z0
                w1 f_loc w2 ->
     latent_of (latent_prior self) z0 w2 z w3 ->
     ExactGP_sample_kernel_params (dkl_base self) w3 = (inr kp, w4) ->
     exists noise w',
       DKL_model self X y w0 = (inr tt, w') /\
       trace w' =
         trace w4 ++
         [sample_site "noise" (LogNormal (lit 0) (lit 1)) None (plates w4) noise;
          sample_site "y"
            (MultivariateNormal f_loc
               (get_kernel (kernel (dkl_base self)) z z kp (Some noise) None))
            (Some y) (plates w4) y]).
Proof.
  intros Hinit. unfold DKL_init in Hinit. injection Hinit as <-.
  split; [reflexivity|].
  intros X y w0 bnn_params w1 z0 n sh f_loc w2 z w3 kp w4
    Hprior Hbnn Hshape Hmean Hlatent Hkp.
  eexists _, _. split.
  - eapply DKL_model_run; eassumption.
  - simpl. rewrite <- app_assoc. reflexivity.
Qed.


End Construction_properties.

(** ** The theorems at the example inputs *)

Section Witnesses.
Import Ref Examples.

Lemma bnn_is_mlp_forward_witness :
  bnn X_train_ex params_ex =
    inr (mlp_forward X_train_ex (eye 2) (full [2] 0) (eye 2) (full [2] 0)
                     (eye 2) (full [2] 0)).
Proof.
  apply (bnn_is_mlp_forward (AL := arrays) X_train_ex params_ex); reflexivity.
Defined.


Lemma get_mvn_posterior_keeps_training_data_witness :
  let w' := snd (get_mvn_posterior dkl_ex X_new_ex params_ex false w_trained) in
  heap w' !! 1%positive = Some X_train_ex /\
  heap w' !! 2%positive = Some y_train_ex /\
  heap w_trained ⊆ heap w'.
Proof.
  apply (get_mvn_posterior_keeps_training_data (AL := arrays) dkl_ex X_new_ex params_ex false
           w_trained 1%positive 2%positive X_train_ex y_train_ex); reflexivity.
Defined.

Lemma DKL_model_likelihood_witness :
  exists f_loc z kp noise w',
    DKL_model dkl_ex X_train_ex y_train_ex w_empty = (inr tt, w') /\
    last (trace w') =
      Some (sample_site "y"
              (MultivariateNormal f_loc
                 (get_kernel (OStr "RBF") z z kp (Some noise) None))
              (Some y_train_ex) [] y_train_ex).
Proof.
  edestruct (DKL_model_likelihood (AL := arrays) dkl_ex X_train_ex y_train_ex
               w_empty) as (noise & w' & Hrun & Hlast & _).
  - reflexivity.
  - reflexivity.
  - reflexivity.
  - split; reflexivity.
  - split; reflexivity.
  - reflexivity.
  - eexists _, _, _, noise, w'. split; [exact Hrun|exact Hlast].
Defined.


Lemma MultiTaskGP_model_likelihood_witness :
  exists lcm noise kernel_params s',
    MultiTaskGP_model X_tasks_ex (Some (full [4] 0)) ∅ (mtgp_ex, w_tasks)
      = (inr tt, s') /\
    last (trace (snd s')) =
      Some (sample_site "y"
              (MultivariateNormal (zeros [4])
                 (LCMKernel_call lcm X_tasks_ex X_tasks_ex kernel_params noise ∅))
              (Some (full [4] 0)) [] (full [4] 0)) /\
    shape (zeros [4]) = [4].
Proof.
  pose (r1 := _sample_kernel_params mtgp_filled_ex w_tasks).
  pose (r2 := _sample_task_kernel_params mtgp_filled_ex (snd r1)).
  pose (r3 := sample "noise" (Independent (LogNormal (zeros [3]) (ones [3])) 1)
                     None (snd r2)).
  destruct (MultiTaskGP_model_likelihood (AL := arrays) X_tasks_ex
              (full [4] 0) ∅ mtgp_ex w_tasks 4 [2] 0 3
              {| lcm_base_kernel := KernelName "RBF";
                 lcm_shared_input_space := false;
                 lcm_num_tasks := None; lcm_kwargs := ∅ |}
              (value_of ∅ (fst r1)) (snd r1) (value_of ∅ (fst r2)) (snd r2)
              (value_of (lit 0) (fst r3)) (snd r3) (zeros [4]) (snd r3))
    as (kp & s' & Hrun & Hlast & _ & _ & Hlen).
  - reflexivity.
  - discriminate.
  - intros _ _. exists 1%positive, X_tasks_ex. repeat split; reflexivity.
  - vm_compute. reflexivity.
  - vm_compute. reflexivity.
  - vm_compute. reflexivity.
  - reflexivity.
  - split; reflexivity.
  - eexists _, _, kp, s'. split; [exact Hrun|]. split; [exact Hlast|].
    apply Hlen. simpl. lia.
Defined.

Lemma MultiTaskGP_fills_in_configuration_witness :
  let self' :=
    fst (snd (MultiTaskGP_model X_tasks_ex None ∅ (mtgp_ex, w_tasks))) in
  self' = mtgp_filled_ex /\
  num_tasks self' = Some 3 /\ rank self' = Some 2 /\
  num_latents self' = Some 2 /\
  fst (snd (MultiTaskGP_model X_new_ex None ∅ (self', w_empty))) = self'.
Proof.
  destruct (MultiTaskGP_fills_in_configuration (AL := arrays))
    as (_ & Hfill & Hkeep).
  assert (Hshape : shape X_tasks_ex = 4 :: [2]) by reflexivity.
  assert (Hshared : shared_input mtgp_ex = true -> is_Some (num_tasks mtgp_ex))
    by discriminate.
  assert (Hfound : shared_input mtgp_ex = false -> num_tasks mtgp_ex = None ->
            exists l Xt, X_train (mt_base mtgp_ex) = Some l /\
                         heap w_tasks !! l = Some Xt /\
                         num_unique (last_column Xt) = 3).
  { intros _ _. exists 1%positive, X_tasks_ex. repeat split; reflexivity. }
  destruct (Hfill X_tasks_ex None ∅ mtgp_ex w_tasks 4 [2] 3
              Hshape Hshared Hfound) as (Heq & Hnt & Hrk & Hlater).
  intros self'.
  split; [exact Heq|]. split; [apply Hnt; reflexivity|].
  split; [subst self'; rewrite Heq; reflexivity|].
  split; [exact (proj1 (Hkeep X_tasks_ex None ∅ mtgp_ex w_tasks))|apply Hlater].
Defined.

(** A model constructed with the prior [kernel_prior_ex] of the kernel
    parameters has no kernel prior, and its [model] records the sites of the
    default prior of the base class, not [k_custom]. *)
Lemma DKL_kernel_prior_is_not_used_witness :
  kernel_prior (dkl_base dkl_kernel_prior_ex) = None /\
  exists w',
    DKL_model dkl_kernel_prior_ex X_train_ex y_train_ex w_empty = (inr tt, w') /\
    site_name <$> trace w' =
      ["w1"; "b1"; "w2"; "b2"; "w3"; "b3"; "k_length"; "k_scale"; "noise"; "y"].
Proof.
  destruct (DKL_kernel_prior_is_not_used (AL := arrays) 2 2 "RBF"
              kernel_prior_ex None None None None None dkl_kernel_prior_ex
              eq_refl) as (Hnone & Hrun).
  split; [exact Hnone|].
  pose (r1 := bnn_prior 2 2 w_empty).
  pose (z0 := value_of (lit 0) (bnn X_train_ex (value_of ∅ (fst r1)))).
  pose (r2 := exact_gp_sample_kernel_params (dkl_base dkl_kernel_prior_ex)
                (snd r1)).
  destruct (Hrun X_train_ex y_train_ex w_empty (value_of ∅ (fst r1)) (snd r1)
              z0 2 [2] (zeros [2]) (snd r1) z0 (snd r1)
              (value_of ∅ (fst r2)) (snd r2))
    as (noise & w' & Hmodel & Htrace).
  - vm_compute. reflexivity.
  - vm_compute. reflexivity.
  - vm_compute. reflexivity.
  - split; reflexivity.
  - split; reflexivity.
  - vm_compute. reflexivity.
  - exists w'. split; [exact Hmodel|].
    rewrite Htrace, fmap_app. vm_compute. reflexivity.
Defined.

(** With a noise of 1 in the parameter sample, the two values of the
    [noiseless] flag give different covariances (and the same mean). *)
Example get_mvn_posterior_cov_depends_on_noiseless :
  let params := <["noise" := VArr (full [] 1)]> params_ex in
  fst (get_mvn_posterior dkl_ex X_new_ex params true w_trained) <>
  fst (get_mvn_posterior dkl_ex X_new_ex params false w_trained).
Proof. vm_compute. discriminate. Qed.



(** With the number of tasks given, a kernel name that the kernel library
    does not know makes the constructor of the LCM kernel raise. *)
Example MultiTaskGP_init_unknown_kernel :
  MultiTaskGP_init (AL := arrays) 1 (KernelName "Bogus") None true (Some 2)
    None None None None None None false ∅
  = inl (KeyError "Bogus").
Proof. reflexivity. Qed.

End Witnesses.

(** * Further properties of the code *)

(** ** The network and its prior *)

Section Network_properties.
Context `{AL : ArrayLib} `{EN : !Engine} `{PK : !Package}.

Lemma param_agree (p q : dict) key :
  p !! key = q !! key -> param p key = param q key.
Proof. intros H. unfold param. rewrite H. reflexivity. Qed.

(** X1: [bnn] reads the six weights and biases and nothing else: two
    dictionaries that agree on [w1], [b1], [w2], [b2], [w3], [b3] give the
    same outcome, whatever else they hold (the noise, kernel parameters). *)
Theorem bnn_reads_only_its_keys (X : arr) (p q : dict) :
  (forall key, key ∈ bnn_keys -> p !! key = q !! key) ->
  bnn X p = bnn X q.
Proof.
  intros H. unfold bnn.
  rewrite (param_agree p q "w1"), (param_agree p q "b1"),
    (param_agree p q "w2"), (param_agree p q "b2"),
    (param_agree p q "w3"), (param_agree p q "b3");
    [reflexivity|..]; apply H; unfold bnn_keys; set_solver.
Qed.

Lemma param_cases (p : dict) key :
  (exists a, p !! key = Some (VArr a) /\ param p key = inr a) \/
  (p !! key = None /\ param p key = inl (KeyError key)) \/
  (p !! key = Some VNone /\ param p key = inl TypeError).
Proof.
  unfold param. destruct (p !! key) as [[|a]|]; eauto.
Qed.

(** X2: how [bnn] depends on the six names.  A run that returns has found
    an array under each of them; a run that raises [KeyError] names the
    first name, in the order [w1], [b1], [w2], [b2], [w3], [b3] of the
    reads, that the dictionary does not hold, every earlier name holding an
    array; and without [w1] every run raises [KeyError] for it, whatever
    the inputs and the other entries are. *)
Theorem bnn_raises_on_first_bad_key (X : arr) (p : dict) :
  (forall z, bnn X p = inr z ->
     Forall (fun key => exists a, p !! key = Some (VArr a)) bnn_keys) /\
  (forall key, bnn X p = inl (KeyError key) ->
     exists good rest,
       bnn_keys = good ++ key :: rest /\
       Forall (fun k => exists a, p !! k = Some (VArr a)) good /\
       p !! key = None) /\
  (p !! "w1" = None -> bnn X p = inl (KeyError "w1")).
Proof.
  assert (Hbad : forall good key rest (e : exn),
            bnn_keys = good ++ key :: rest ->
            Forall (fun k => exists a, p !! k = Some (VArr a)) good ->
            (p !! key = None /\ e = KeyError key) \/
            (p !! key = Some VNone /\ e = TypeError) ->
            (p !! "w1" = None -> e = KeyError "w1") ->
            (forall z, @inl exn arr e = inr z ->
               Forall (fun key => exists a, p !! key = Some (VArr a)) bnn_keys) /\
            (forall key', @inl exn arr e = inl (KeyError key') ->
               exists good rest,
                 bnn_keys = good ++ key' :: rest /\
                 Forall (fun k => exists a, p !! k = Some (VArr a)) good /\
                 p !! key' = None) /\
            (p !! "w1" = None -> @inl exn arr e = inl (KeyError "w1"))).
  { intros good key rest e Hk Hgood Hkey Hw1.
    split; [intros z Hz; discriminate|]. split.
    - intros key' He. destruct Hkey as [[Hn ->]|[Hn ->]]; [|discriminate].
      injection He as <-. exists good, rest. auto.
    - intros Hn. rewrite (Hw1 Hn). reflexivity. }
  unfold bnn, rbind.
  destruct (param_cases p "w1") as [(w1 & L1 & ->)|[[L1 ->]|[L1 ->]]];
    [|eapply (Hbad [] "w1"); eauto; try reflexivity; congruence..].
  destruct (param_cases p "b1") as [(b1 & L2 & ->)|[[L2 ->]|[L2 ->]]];
    [|eapply (Hbad ["w1"] "b1"); eauto 10; try reflexivity; congruence..].
  destruct (param_cases p "w2") as [(w2 & L3 & ->)|[[L3 ->]|[L3 ->]]];
    [|eapply (Hbad ["w1"; "b1"] "w2"); eauto 10; try reflexivity;
      congruence..].
  destruct (param_cases p "b2") as [(b2 & L4 & ->)|[[L4 ->]|[L4 ->]]];
    [|eapply (Hbad ["w1"; "b1"; "w2"] "b2"); eauto 10; try reflexivity;
      congruence..].
  destruct (param_cases p "w3") as [(w3 & L5 & ->)|[[L5 ->]|[L5 ->]]];
    [|eapply (Hbad ["w1"; "b1"; "w2"; "b2"] "w3"); eauto 10; try reflexivity;
      congruence..].
  destruct (param_cases p "b3") as [(b3 & L6 & ->)|[[L6 ->]|[L6 ->]]];
    [|eapply (Hbad ["w1"; "b1"; "w2"; "b2"; "w3"] "b3"); eauto 12;
      try reflexivity; congruence..].
  split; [|split].
  - intros _ _. unfold bnn_keys. repeat constructor; eauto.
  - intros key He. discriminate.
  - intros Hn. congruence.
Qed.

Lemma sample_cases (name : string) (fn : dist) (obs : option arr) (w : world) :
  (exists v, sample name fn obs w =
               (inr v, push_site (sample_site name fn obs (plates w) v) w)) \/
  (exists e, sample name fn obs w = (inl e, w)).
Proof.
  unfold sample, bind, get, record_site, modify, ret, raise. simpl.
  destruct obs as [v|]; [eauto|].
  destruct (sample_shape (plates w) fn); eauto.
Qed.

(** What a run of [bnn_prior] that returns leaves: the dictionary of the six
    draws and the world with their six sites. *)
Lemma bnn_prior_returns (input_dim zdim : Z) (w w' : world) (d : dict) :
  bnn_prior input_dim zdim w = (inr d, w') ->
  exists w1 b1 w2 b2 w3 b3,
    d = <["w1" := VArr w1]> (<["b1" := VArr b1]> (<["w2" := VArr w2]>
        (<["b2" := VArr b2]> (<["w3" := VArr w3]>
        (<["b3" := VArr b3]> ∅))))) /\
    w' = push_site (sample_site "b3" (Normal (zeros [zdim]) (ones [zdim]))
                                None (plates w) b3)
        (push_site (sample_site "w3" (Normal (zeros [32; zdim]) (ones [32; zdim]))
                                None (plates w) w3)
        (push_site (sample_site "b2" (Normal (zeros [32]) (ones [32]))
                                None (plates w) b2)
        (push_site (sample_site "w2" (Normal (zeros [64; 32]) (ones [64; 32]))
                                None (plates w) w2)
        (push_site (sample_site "b1" (Normal (zeros [64]) (ones [64]))
                                None (plates w) b1)
        (push_site (sample_site "w1"
                      (Normal (zeros [input_dim; 64]) (ones [input_dim; 64]))
                      None (plates w) w1) w))))).
Proof.
  intros H. unfold bnn_prior, sample_weights, sample_biases in H.
  cbv zeta in H.
  destruct (sample_cases "w1" (Normal (zeros [input_dim; 64])
                                      (ones [input_dim; 64])) None w)
    as [[w1 R]|[e R]]; unfold bind at 1 in H; rewrite R in H;
    [|discriminate].
  match type of H with bind _ _ ?w0 = _ =>
    destruct (sample_cases "b1" (Normal (zeros [64]) (ones [64])) None w0)
      as [[b1 R2]|[e R2]]; unfold bind at 1 in H; rewrite R2 in H;
      [|discriminate] end.
  match type of H with bind _ _ ?w0 = _ =>
    destruct (sample_cases "w2" (Normal (zeros [64; 32]) (ones [64; 32])) None w0)
      as [[w2 R3]|[e R3]]; unfold bind at 1 in H; rewrite R3 in H;
      [|discriminate] end.
  match type of H with bind _ _ ?w0 = _ =>
    destruct (sample_cases "b2" (Normal (zeros [32]) (ones [32])) None w0)
      as [[b2 R4]|[e R4]]; unfold bind at 1 in H; rewrite R4 in H;
      [|discriminate] end.
  match type of H with bind _ _ ?w0 = _ =>
    destruct (sample_cases "w3" (Normal (zeros [32; zdim]) (ones [32; zdim]))
                           None w0)
      as [[w3 R5]|[e R5]]; unfold bind at 1 in H; rewrite R5 in H;
      [|discriminate] end.
  match type of H with bind _ _ ?w0 = _ =>
    destruct (sample_cases "b3" (Normal (zeros [zdim]) (ones [zdim])) None w0)
      as [[b3 R6]|[e R6]]; unfold bind at 1 in H; rewrite R6 in H;
      [|discriminate] end.
  unfold ret in H. inversion H.
  exists w1, b1, w2, b2, w3, b3. split; reflexivity.
Qed.

(** X4: a run of [bnn_prior] that returns adds to the trace six sites, named
    [w1], [b1], [w2], [b2], [w3], [b3] in this order, each a sample site
    without observation; the dictionary maps each name to the value of the
    site of that name; the heap and the open plates are as before. *)
Theorem bnn_prior_records_six_sites (input_dim zdim : Z) (w w' : world)
    (d : dict) :
  bnn_prior input_dim zdim w = (inr d, w') ->
  heap w' = heap w /\ plates w' = plates w /\
  exists sites,
    trace w' = trace w ++ sites /\
    site_name <$> sites = bnn_keys /\
    Forall (fun s => site_kind s = SampleSite /\ site_obs s = None /\
                     site_plates s = plates w /\
                     d !! site_name s = Some (VArr (site_value s))) sites.
Proof.
  intros Hrun.
  destruct (bnn_prior_returns _ _ _ _ _ Hrun)
    as (w1 & b1 & w2 & b2 & w3 & b3 & -> & ->). clear Hrun.
  split; [reflexivity|]. split; [reflexivity|].
  eexists. split.
  - simpl. rewrite <- !app_assoc. simpl. reflexivity.
  - split; [reflexivity|].
    repeat constructor; simpl; simplify_map_eq; reflexivity.
Qed.

End Network_properties.

(** ** The posterior of the DKL model *)

Section Posterior_properties.
Context `{AL : ArrayLib} `{EN : !Engine} `{PK : !Package}.

(** X5: [get_mvn_posterior] is not part of the probabilistic model: it
    records no site and leaves the open plates as they are, whether it
    returns or raises; and for a model without mean function the whole
    state, the stored training data with it, is as before the call. *)
Theorem get_mvn_posterior_records_no_site (self : DKL) (X_new : arr)
    (params : dict) (noiseless : bool) (w : world) :
  let r := get_mvn_posterior self X_new params noiseless w in
  trace (snd r) = trace w /\ plates (snd r) = plates w /\
  (gp_mean_fn self = None -> snd r = w).
Proof.
  cbv zeta.
  unfold get_mvn_posterior, isub, alloc, load, operand, lift_result,
    bind, get, put, ret, raise.
  destruct (param params "noise"); [simpl; auto|].
  destruct (X_train (dkl_base self)); [|simpl; auto].
  destruct (heap w !! l); [|simpl; auto].
  destruct (dkl_bnn self a0 params); [simpl; auto|].
  destruct (dkl_bnn self X_new params); [simpl; auto|].
  destruct (y_train (dkl_base self)) as [ly|], (gp_mean_fn self);
    try (simpl; auto; fail).
  - destruct (heap w !! ly); [|simpl; auto]. simpl.
    rewrite lookup_insert_eq. simpl.
    repeat split; try reflexivity; intros; discriminate.
  - destruct (heap w !! ly); simpl; auto.
Qed.

(** X6: the order in which [get_mvn_posterior] fails.  A parameter sample
    without [noise] raises [KeyError] before anything else is looked at,
    also on a model that is not trained; with the noise, on a model with
    training inputs, an exception of the network on the training inputs is
    passed on, and so is an exception of the network on the new inputs once
    the training inputs are embedded.  The state is as before the call. *)
Theorem get_mvn_posterior_failures (self : DKL) (X_new : arr)
    (params : dict) (noiseless : bool) (w : world) :
  (params !! "noise" = None ->
   get_mvn_posterior self X_new params noiseless w
     = (inl (KeyError "noise"), w)) /\
  (forall noise lx Xt,
     params !! "noise" = Some (VArr noise) ->
     X_train (dkl_base self) = Some lx -> heap w !! lx = Some Xt ->
     (forall e, dkl_bnn self Xt params = inl e ->
        get_mvn_posterior self X_new params noiseless w = (inl e, w)) /\
     (forall z_train e,
        dkl_bnn self Xt params = inr z_train ->
        dkl_bnn self X_new params = inl e ->
        get_mvn_posterior self X_new params noiseless w = (inl e, w))).
Proof.
  split.
  - intros Hn. unfold get_mvn_posterior, lift_result, bind, param.
    rewrite Hn. reflexivity.
  - intros noise lx Xt Hn HX HXt. split.
    + intros e He.
      unfold get_mvn_posterior, load, operand, lift_result, bind, get, ret.
      rewrite (param_array _ _ _ Hn), HX. cbv beta iota zeta. rewrite HXt, He.
      reflexivity.
    + intros z_train e Hz He.
      unfold get_mvn_posterior, load, operand, lift_result, bind, get, ret.
      rewrite (param_array _ _ _ Hn), HX. cbv beta iota zeta.
      rewrite HXt, Hz, He. reflexivity.
Qed.

(** X8: the predictive covariance depends neither on the targets nor on the
    mean function: of two trained models that differ in the mean function
    only, over heaps that hold the same training inputs and any targets,
    two runs that return give the same covariance. *)
Theorem get_mvn_posterior_cov_ignores_targets (self : DKL) (X_new : arr)
    (params : dict) (noiseless : bool) (w1 w2 : world) m1 m2
    lx Xt (mc1 mc2 : arr * arr) :
  X_train (dkl_base self) = Some lx ->
  heap w1 !! lx = Some Xt -> heap w2 !! lx = Some Xt ->
  fst (get_mvn_posterior (with_gp_mean_fn m1 self) X_new params noiseless w1)
    = inr mc1 ->
  fst (get_mvn_posterior (with_gp_mean_fn m2 self) X_new params noiseless w2)
    = inr mc2 ->
  snd mc1 = snd mc2.
Proof.
  intros HX HX1 HX2.
  unfold get_mvn_posterior, with_gp_mean_fn, isub, alloc, load,
    operand, lift_result, bind, get, put, ret, raise. simpl.
  destruct (param params "noise"); [discriminate|].
  rewrite HX. cbv beta iota zeta. rewrite HX1, HX2.
  destruct (dkl_bnn self Xt params); [discriminate|].
  destruct (dkl_bnn self X_new params); [discriminate|].
  destruct (y_train (dkl_base self)) as [ly|]; cycle 1.
  { destruct m1; cbv beta iota zeta; discriminate. }
  destruct m1, m2; cbv beta iota zeta;
    destruct (heap w1 !! ly), (heap w2 !! ly); cbn [heap fst];
    rewrite ?lookup_insert_eq; cbn [fst];
    intros H1 H2; try discriminate;
    injection H1 as <-; injection H2 as <-; reflexivity.
Qed.

(** X9: the prior of the mean function is never run for prediction:
    [get_mvn_posterior] only tests whether there is one (the mean function
    then receives the parameter sample); and [DKL.model] does not run it
    when there is no mean function. *)
Theorem gp_mean_fn_prior_is_only_a_switch (self : DKL) :
  (forall p q X_new params noiseless w,
     get_mvn_posterior (with_gp_mean_fn_prior (Some p) self) X_new params
                       noiseless w
     = get_mvn_posterior (with_gp_mean_fn_prior (Some q) self) X_new params
                         noiseless w) /\
  (forall p X y w,
     gp_mean_fn self = None ->
     DKL_model (with_gp_mean_fn_prior p self) X y w = DKL_model self X y w).
Proof.
  split.
  - intros. reflexivity.
  - intros p X y w Hm. unfold DKL_model, with_gp_mean_fn_prior. simpl.
    rewrite Hm. reflexivity.
Qed.

(** X10: how [DKL.model] fails before the likelihood.  An exception of the
    prior of the network or of the network itself is passed on, and an
    embedding without dimensions raises [IndexError]; in each case the state
    is the one that the prior of the network left: neither the noise nor
    [y] is recorded. *)
Theorem DKL_model_failures (self : DKL) (X y : arr) (w0 : world) :
  (forall e w1, dkl_bnn_prior self w0 = (inl e, w1) ->
     DKL_model self X y w0 = (inl e, w1)) /\
  (forall bnn_params w1,
     dkl_bnn_prior self w0 = (inr bnn_params, w1) ->
     (forall e, dkl_bnn self X bnn_params = inl e ->
        DKL_model self X y w0 = (inl e, w1)) /\
     (forall z0, dkl_bnn self X bnn_params = inr z0 -> shape z0 = [] ->
        DKL_model self X y w0 = (inl IndexError, w1))).
Proof.
  split.
  - intros e w1 H. unfold DKL_model, bind. rewrite H. reflexivity.
  - intros bnn_params w1 H. split.
    + intros e He. unfold DKL_model, bind, lift_result. rewrite H, He.
      reflexivity.
    + intros z0 Hz Hs. unfold DKL_model, bind, lift_result, shape0, raise.
      rewrite H, Hz, Hs. reflexivity.
Qed.

Lemma jit_lookup_compiled_from (self : DKL) (cache : jit_cache) key f :
  compiled_from self cache -> jit_lookup key cache = Some f ->
  exists w0 : world, f = fun X p b => fst (get_mvn_posterior self X p b w0).
Proof.
  unfold compiled_from. induction cache as [|[k g] cache IH]; [discriminate|].
  intros Hall Hl. apply Forall_cons_1 in Hall as [[w0 Hg] Hall].
  cbn [jit_lookup] in Hl. destruct (decide (k = key)).
  - injection Hl as <-. exists w0. exact Hg.
  - apply IH; assumption.
Qed.

(** X25: the decorated method keeps the properties of its body.  When the
    compiled functions of the model come from the body, a call of
    [get_mvn_posterior] through [jax.jit] leaves compiled functions that
    come from the body, keeps every array of the heap (the stored training
    data with them), and returns the same mean (or raises the same
    exception) and ends in the same state for the two values of the
    [noiseless] flag; a call for shapes that were compiled before changes
    nothing of the state. *)
Theorem get_mvn_posterior_jit_keeps_body_properties (self : DKL)
    (cache : jit_cache) (X_new : arr) (params : dict) (w : world) :
  compiled_from self cache ->
  (forall noiseless,
     let s' := snd (get_mvn_posterior_jit self X_new params noiseless
                      (cache, w)) in
     compiled_from self (fst s') /\ heap w ⊆ heap (snd s') /\
     (is_Some (jit_lookup (jit_key_of X_new params) cache) ->
      s' = (cache, w))) /\
  jit_mean_of (get_mvn_posterior_jit self X_new params true (cache, w)) =
  jit_mean_of (get_mvn_posterior_jit self X_new params false (cache, w)).
Proof.
  intros Hcache. split.
  - intros noiseless. cbv zeta. unfold get_mvn_posterior_jit. cbn [fst snd].
    destruct (jit_lookup (jit_key_of X_new params) cache) as [f|] eqn:Hl.
    + cbn [fst snd]. auto.
    + pose proof (get_mvn_posterior_heap_grows self X_new params noiseless w)
        as Hsub.
      destruct (get_mvn_posterior self X_new params noiseless w)
        as [[e|mc] w'].
      * cbn [fst snd] in *. split; [exact Hcache|]. split; [exact Hsub|].
        intros [? ?]; discriminate.
      * cbn [fst snd] in *. split.
        { apply Forall_cons. split; [exists w; reflexivity|exact Hcache]. }
        split; [exact Hsub|]. intros [? ?]; discriminate.
  - unfold jit_mean_of, get_mvn_posterior_jit. cbn [fst snd].
    destruct (jit_lookup (jit_key_of X_new params) cache) as [f|] eqn:Hl.
    + destruct (jit_lookup_compiled_from self cache _ f Hcache Hl) as [w0 ->].
      cbn [fst snd]. f_equal.
      unfold get_mvn_posterior, isub, alloc, load, operand, lift_result,
        bind, get, put, ret, raise.
      destruct (param params "noise"); [reflexivity|].
      destruct (X_train (dkl_base self)); [|reflexivity].
      destruct (heap w0 !! l); [|reflexivity].
      destruct (dkl_bnn self a0 params); [reflexivity|].
      destruct (dkl_bnn self X_new params); [reflexivity|].
      destruct (y_train (dkl_base self)) as [ly|], (gp_mean_fn self);
        try reflexivity.
      * destruct (heap w0 !! ly); [|reflexivity]. simpl.
        rewrite lookup_insert_eq. reflexivity.
      * destruct (heap w0 !! ly); reflexivity.
    + unfold get_mvn_posterior, isub, alloc, load, operand, lift_result,
        bind, get, put, ret, raise.
      destruct (param params "noise"); [reflexivity|].
      destruct (X_train (dkl_base self)); [|reflexivity].
      destruct (heap w !! l); [|reflexivity].
      destruct (dkl_bnn self a0 params); [reflexivity|].
      destruct (dkl_bnn self X_new params); [reflexivity|].
      destruct (y_train (dkl_base self)) as [ly|], (gp_mean_fn self);
        try reflexivity.
      * destruct (heap w !! ly); [|reflexivity]. simpl.
        rewrite lookup_insert_eq. reflexivity.
      * destruct (heap w !! ly); reflexivity.
Qed.

End Posterior_properties.

(** ** What the models leave of the state *)

Section Appends_only_properties.
Context `{AL : ArrayLib} `{EN : !Engine} `{PK : !Package}.

Lemma appends_only_ret {A} (a : A) : appends_only (ret a).
Proof. intros w. simpl. auto. Qed.

Lemma appends_only_raise {A} (e : exn) : appends_only (A := A) (raise e).
Proof. intros w. simpl. auto. Qed.

Lemma appends_only_lift_result {A} (r : result A) :
  appends_only (lift_result r).
Proof. intros w. simpl. auto. Qed.

Lemma appends_only_bind {A B} (c : Py world A) (k : A -> Py world B) :
  appends_only c -> (forall a, appends_only (k a)) -> appends_only (bind c k).
Proof.
  intros Hc Hk w. unfold bind. specialize (Hc w).
  destruct (c w) as [[e|a] w1]; [exact Hc|].
  simpl in Hc. destruct Hc as (Hh & Hp & Ht).
  destruct (Hk a w1) as (Hh' & Hp' & Ht').
  split; [congruence|]. split; [congruence|].
  etransitivity; eassumption.
Qed.

Lemma appends_only_sample (name : string) (fn : dist) (obs : option arr) :
  appends_only (sample name fn obs).
Proof.
  intros w.
  destruct (sample_cases name fn obs w) as [[v ->]|[e ->]]; simpl; auto.
  split; [reflexivity|]. split; [reflexivity|]. apply prefix_app_r.
  reflexivity.
Qed.

Lemma appends_only_deterministic (name : string) (v : arr) :
  appends_only (deterministic name v).
Proof.
  intros w. simpl. split; [reflexivity|]. split; [reflexivity|].
  apply prefix_app_r. reflexivity.
Qed.

Lemma appends_only_with_plate {A} (name : string) (size : Z) (dim : option Z)
    (body : Py world A) :
  appends_only body -> appends_only (with_plate name size dim body).
Proof.
  intros Hb w. unfold with_plate.
  destruct (decide (size <= 0)); [simpl; auto|].
  destruct dim as [d|]; [destruct (decide (0 <= d)); [simpl; auto|]|];
    match goal with |- context [body ?w0] =>
      destruct (Hb w0) as (Hh & _ & Ht); destruct (body w0) as [r w1] end;
    simpl in *; auto.
Qed.

Lemma appends_only_as_int (v : option Z) : appends_only (as_int v).
Proof. destruct v; [apply appends_only_ret|apply appends_only_raise]. Qed.

Ltac appends_only_tac :=
  repeat first
    [ apply appends_only_ret | apply appends_only_raise
    | apply appends_only_lift_result | apply appends_only_sample
    | apply appends_only_deterministic | apply appends_only_as_int
    | apply appends_only_with_plate
    | apply appends_only_bind; [|intros]
    | assumption
    | match goal with
      | |- appends_only (match ?x with _ => _ end) => destruct x eqn:?
      | |- appends_only (if ?x then _ else _) => destruct x
      | |- appends_only (let '(_, _) := ?x in _) => destruct x
      | |- appends_only (shape0 _) => unfold shape0
      | |- appends_only (operand _) => unfold operand
      end ].

Lemma bnn_prior_appends_only (input_dim zdim : Z) :
  appends_only (bnn_prior input_dim zdim).
Proof.
  unfold bnn_prior, sample_weights, sample_biases. cbv zeta.
  appends_only_tac.
Qed.

Lemma _sample_task_kernel_params_appends_only (self : MultiTaskGP) :
  appends_only (_sample_task_kernel_params self).
Proof. unfold _sample_task_kernel_params. appends_only_tac. Qed.

Lemma _sample_kernel_params_appends_only (self : MultiTaskGP) :
  appends_only (_sample_kernel_params self).
Proof. unfold _sample_kernel_params. cbv zeta. appends_only_tac. Qed.

(** X11: the default priors ([bnn_prior], [_sample_task_kernel_params],
    [_sample_kernel_params]) only add sites to the trace, whether they
    return or raise: the arrays of the heap are the same after the call,
    the sites recorded before are kept, and no plate is left open. *)
Theorem default_priors_only_append :
  (forall input_dim zdim, appends_only (bnn_prior input_dim zdim)) /\
  (forall self, appends_only (_sample_task_kernel_params self)) /\
  (forall self, appends_only (_sample_kernel_params self)).
Proof.
  split; [|split].
  - apply bnn_prior_appends_only.
  - apply _sample_task_kernel_params_appends_only.
  - apply _sample_kernel_params_appends_only.
Qed.

(** X12: [DKL.model] only adds sites to the trace, provided the priors it
    is given do: it never changes the stored training data and leaves no
    plate open, whether it returns or raises. *)
Theorem DKL_model_only_appends (self : DKL) (X y : arr) :
  appends_only (dkl_bnn_prior self) ->
  (forall prior, gp_mean_fn_prior self = Some prior -> appends_only prior) ->
  (forall lp z, latent_prior self = Some lp -> appends_only (lp z)) ->
  appends_only (hyperprior (kernel_prior (dkl_base self))
                           (ExactGP_sample_kernel_params (dkl_base self))) ->
  appends_only (DKL_model self X y).
Proof.
  intros Hbnn Hmean Hlatent Hkp. unfold hyperprior in Hkp.
  unfold DKL_model. cbv zeta.
  apply appends_only_bind; [exact Hbnn|intros bnn_params].
  apply appends_only_bind; [apply appends_only_lift_result|intros z].
  apply appends_only_bind; [unfold shape0; appends_only_tac|intros n].
  apply appends_only_bind.
  { destruct (gp_mean_fn self) as [m|]; [|apply appends_only_ret].
    destruct (gp_mean_fn_prior self) as [prior|] eqn:Hp;
      [|apply appends_only_ret].
    apply appends_only_bind; [apply Hmean; reflexivity|intros].
    apply appends_only_ret. }
  intros f_loc.
  apply appends_only_bind.
  { destruct (latent_prior self) as [lp|] eqn:Hl; [|apply appends_only_ret].
    apply (Hlatent lp z eq_refl). }
  intros z'.
  apply appends_only_bind; [exact Hkp|intros kp].
  appends_only_tac.
Qed.

Lemma appends_only_on_ret {O A} (I : O -> Prop) (a : A) :
  appends_only_on I (ret a).
Proof. intros s HI. simpl. auto. Qed.

Lemma appends_only_on_raise {O A} (I : O -> Prop) (e : exn) :
  appends_only_on (A := A) I (raise e).
Proof. intros s HI. simpl. auto. Qed.

Lemma appends_only_on_update_self {O} (I : O -> Prop) (f : O -> O) :
  (forall o, I o -> I (f o)) -> appends_only_on I (update_self f).
Proof. intros Hf s HI. simpl. auto. Qed.

Lemma appends_only_on_lift_world {O A} (I : O -> Prop) (c : Py world A) :
  appends_only c -> appends_only_on I (lift_world c).
Proof.
  intros Hc s HI. unfold lift_world. specialize (Hc (snd s)).
  destruct (c (snd s)) as [r w']. simpl in *. tauto.
Qed.

Lemma appends_only_on_bind {O A B} (I : O -> Prop) (c : Py (O * world) A)
    (k : A -> Py (O * world) B) :
  appends_only_on I c -> (forall a, appends_only_on I (k a)) ->
  appends_only_on I (bind c k).
Proof.
  intros Hc Hk s HI. unfold bind. specialize (Hc s HI).
  destruct (c s) as [[e|a] s1]; [exact Hc|].
  simpl in Hc. destruct Hc as (HI1 & Hh & Hp & Ht).
  destruct (Hk a s1 HI1) as (HI2 & Hh' & Hp' & Ht').
  split; [exact HI2|]. split; [congruence|]. split; [congruence|].
  etransitivity; eassumption.
Qed.

Lemma appends_only_on_get_self {O B} (I : O -> Prop)
    (k : O -> Py (O * world) B) :
  (forall o, I o -> appends_only_on I (k o)) ->
  appends_only_on I (bind get_self k).
Proof. intros Hk s HI. unfold bind, get_self. apply Hk; exact HI. Qed.

(** X13: [MultiTaskGP.model] only adds sites to the trace, provided the
    priors it is given do: whatever the outcome, the heap (the training
    data) is the same after the call, the sites recorded before are kept
    and no plate is left open. *)
Theorem MultiTaskGP_model_only_appends (X : arr) (y : option arr)
    (kwargs : dict) (self : MultiTaskGP) (w : world) :
  (forall prior, data_kernel_prior self = Some prior -> appends_only prior) ->
  (forall prior, task_kernel_prior self = Some prior -> appends_only prior) ->
  (forall prior, noise_prior (mt_base self) = Some prior ->
                 appends_only prior) ->
  (forall prior, mean_fn_prior (mt_base self) = Some prior ->
                 appends_only prior) ->
  let w' := snd (snd (MultiTaskGP_model X y kwargs (self, w))) in
  heap w' = heap w /\ plates w' = plates w /\ trace w `prefix_of` trace w'.
Proof.
  intros Hdk Htk Hnoise Hmean.
  pose (I := fun o : MultiTaskGP =>
               mt_base o = mt_base self /\
               data_kernel_prior o = data_kernel_prior self /\
               task_kernel_prior o = task_kernel_prior self).
  assert (HI : I self) by (repeat split).
  assert (Hset : forall o t, I o -> I (set_num_tasks t o))
    by (intros o t Ho; exact Ho).
  assert (Hrank : forall o r, I o -> I (set_rank r o))
    by (intros o r Ho; exact Ho).
  assert (H : appends_only_on I (MultiTaskGP_model X y kwargs));
    [|exact (proj2 (H (self, w) HI))].
  pose proof _sample_task_kernel_params_appends_only as Htask.
  pose proof _sample_kernel_params_appends_only as Hdata.
  unfold MultiTaskGP_model.
  apply appends_only_on_get_self. intros o0 Ho0.
  apply appends_only_on_bind.
  { unfold shape0. destruct (shape X);
      [apply appends_only_on_raise|apply appends_only_on_ret]. }
  intros n. apply appends_only_on_bind.
  { destruct (shared_input o0); [|apply appends_only_on_ret].
    apply appends_only_on_bind; [|intros; apply appends_only_on_ret].
    unfold as_int. destruct (num_tasks o0);
      [apply appends_only_on_ret|apply appends_only_on_raise]. }
  intros f_loc. apply appends_only_on_bind.
  { destruct (negb (shared_input o0) && bool_decide (num_tasks o0 = None));
      [|apply appends_only_on_ret].
    apply appends_only_on_bind.
    { unfold operand. destruct (X_train (mt_base o0));
        [apply appends_only_on_ret|apply appends_only_on_raise]. }
    intros l. apply appends_only_on_bind.
    { apply appends_only_on_lift_world. unfold load.
      apply appends_only_bind; [intros w0; simpl; auto|intros w0].
      destruct (heap w0 !! l);
        [apply appends_only_ret|apply appends_only_raise]. }
    intros Xt. apply appends_only_on_update_self. intros; apply Hset; auto. }
  intros _. apply appends_only_on_get_self. intros o1 Ho1.
  apply appends_only_on_bind.
  { destruct (rank o1); [apply appends_only_on_ret|].
    apply appends_only_on_bind.
    { unfold as_int. destruct (num_tasks o1);
        [apply appends_only_on_ret|apply appends_only_on_raise]. }
    intros T. apply appends_only_on_update_self. intros; apply Hrank; auto. }
  intros _. apply appends_only_on_get_self. intros o2 (Hb & Hd & Ht).
  apply appends_only_on_bind.
  { apply appends_only_on_lift_world.
    destruct (data_kernel_prior o2) as [prior|] eqn:Hp; [|apply Hdata].
    apply Hdk. congruence. }
  intros dkp. apply appends_only_on_bind.
  { apply appends_only_on_lift_world.
    destruct (task_kernel_prior o2) as [prior|] eqn:Hp; [|apply Htask].
    apply Htk. congruence. }
  intros tkp. apply appends_only_on_bind.
  { apply appends_only_on_lift_world.
    destruct (noise_prior (mt_base o2)) as [prior|] eqn:Hp.
    - apply Hnoise. congruence.
    - apply appends_only_bind; [apply appends_only_as_int|intros].
      apply appends_only_sample. }
  intros noise. apply appends_only_on_bind.
  { destruct (kernel (mt_base o2));
      first [apply appends_only_on_ret|apply appends_only_on_raise]. }
  intros k. apply appends_only_on_bind.
  { destruct (mean_fn (mt_base o2)) as [m|]; [|apply appends_only_on_ret].
    destruct (mean_fn_prior (mt_base o2)) as [prior|] eqn:Hp;
      [|apply appends_only_on_ret].
    apply appends_only_on_bind; [|intros; apply appends_only_on_ret].
    apply appends_only_on_lift_world. apply Hmean. congruence. }
  intros f_loc'. apply appends_only_on_bind;
    [|intros; apply appends_only_on_ret].
  apply appends_only_on_lift_world, appends_only_sample.
Qed.

End Appends_only_properties.

(** ** The configuration of the multi-task model *)

Section Configuration_properties.
Context `{AL : ArrayLib} `{EN : !Engine} `{PK : !Package}.

(** X14: a call of [MultiTaskGP.model] assigns to [num_tasks] and [rank]
    only: the attributes of the base class (the kernel object among them),
    the number of latent functions, the name of the data kernel, the priors
    and the two flags are the same after the call, whatever its outcome. *)
Theorem MultiTaskGP_model_assigns_num_tasks_and_rank_only (X : arr)
    (y : option arr) (kwargs : dict) (self : MultiTaskGP) (w : world) :
  let self' := fst (snd (MultiTaskGP_model X y kwargs (self, w))) in
  mt_base self' = mt_base self /\
  num_latents self' = num_latents self /\
  data_kernel_name self' = data_kernel_name self /\
  data_kernel_prior self' = data_kernel_prior self /\
  task_kernel_prior self' = task_kernel_prior self /\
  shared_input self' = shared_input self /\
  output_scale self' = output_scale self.
Proof.
  cbv zeta.
  destruct (MultiTaskGP_model_persists X y kwargs self w)
    as (nt & rk & -> & _). simpl. auto 10.
Qed.

(** X15: what the constructor guarantees.  A [MultiTaskGP] object that was
    constructed has a number of latent functions, and a number of tasks
    when its input space is shared; its kernel object is built from the
    arguments of the constructor, and a call of [model] does not rebuild
    it: when [num_tasks] is left out and inferred by [model], the kernel
    object still holds the [None] it was constructed with. *)
Theorem MultiTaskGP_init_invariant
    input_dim data_kernel num_latents_ shared_input_space num_tasks_
    rank_ mean_fn_ data_kernel_prior_ mean_fn_prior_ noise_prior_
    task_kernel_prior_ output_scale_ kwargs self :
  MultiTaskGP_init input_dim data_kernel num_latents_ shared_input_space
    num_tasks_ rank_ mean_fn_ data_kernel_prior_ mean_fn_prior_
    noise_prior_ task_kernel_prior_ output_scale_ kwargs = inr self ->
  let lcm := OLCMKernel {| lcm_base_kernel := data_kernel;
                           lcm_shared_input_space := shared_input_space;
                           lcm_num_tasks := num_tasks_;
                           lcm_kwargs := kwargs |} in
  is_Some (num_latents self) /\
  (shared_input self = true -> is_Some (num_tasks self)) /\
  shared_input self = shared_input_space /\
  kernel (mt_base self) = lcm /\
  (forall X y kwargs' w,
     kernel (mt_base (fst (snd (MultiTaskGP_model X y kwargs' (self, w)))))
       = lcm).
Proof.
  intros Hinit lcm.
  assert (Hk : kernel (mt_base self) = lcm /\
               is_Some (num_latents self) /\
               (shared_input self = true -> is_Some (num_tasks self)) /\
               shared_input self = shared_input_space).
  { apply MultiTaskGP_init_returns in Hinit as (_ & Hcfg & ->).
    cbn [mt_base kernel set_kernel num_latents num_tasks shared_input].
    destruct shared_input_space, num_tasks_ as [t|], num_latents_ as [l|];
      simpl in Hcfg; try (destruct Hcfg as [? ?]; discriminate);
      repeat split; eauto; discriminate. }
  destruct Hk as (Hk & HL & HT & Hs).
  repeat split; try assumption.
  intros X y kwargs' w.
  destruct (MultiTaskGP_model_persists X y kwargs' self w)
    as (nt & rk & -> & _).
  exact Hk.
Qed.

Lemma length_remove_dups_le {A} `{EqDecision A} (l : list A) :
  (length (remove_dups l) <= length l)%nat.
Proof.
  induction l as [|x l IH]; simpl; [lia|].
  destruct (decide_rel elem_of x l); simpl; lia.
Qed.

Lemma num_unique_bounds (xs : list elt) :
  0 <= num_unique xs <= Z.of_nat (length xs) /\
  (num_unique xs = 0 <-> xs = []).
Proof.
  unfold num_unique. pose proof (length_remove_dups_le xs). split; [lia|].
  split.
  - intros H0. destruct xs as [|x xs]; [reflexivity|]. exfalso.
    assert (Hx : x ∈ remove_dups (x :: xs))
      by (apply elem_of_remove_dups; left).
    destruct (remove_dups (x :: xs)); [inversion Hx|simpl in H0; lia].
  - intros ->. reflexivity.
Qed.

(** X16: the number of tasks that [model] infers and the rank it derives.
    For a model over task-indexed inputs with neither [num_tasks] nor
    [rank] specified, a call of [model] sets [num_tasks] to a number [t]
    between 0 and the number of training rows and [rank] to [t - 1]; [t] is
    0 exactly when [X_train] has no rows, and then the rank is [-1]. *)
Theorem MultiTaskGP_model_inferred_rank (X : arr) (y : option arr)
    (kwargs : dict) (self : MultiTaskGP) (w : world) n sh l Xt :
  shape X = n :: sh ->
  shared_input self = false -> num_tasks self = None -> rank self = None ->
  X_train (mt_base self) = Some l -> heap w !! l = Some Xt ->
  let self' := fst (snd (MultiTaskGP_model X y kwargs (self, w))) in
  exists t,
    num_tasks self' = Some t /\ rank self' = Some (t - 1) /\
    0 <= t <= Z.of_nat (length (last_column Xt)) /\
    (t = 0 <-> last_column Xt = []) /\
    (last_column Xt = [] -> rank self' = Some (-1)).
Proof.
  intros Hshape Hs Hnt Hrk HX HXt self'.
  assert (Hfill : self' = filled self (num_unique (last_column Xt))).
  { apply (MultiTaskGP_model_fills_in X y kwargs self w n sh); [exact Hshape| |].
    - rewrite Hs. discriminate.
    - intros _ _. exists l, Xt. auto. }
  destruct (num_unique_bounds (last_column Xt)) as (Hb & H0).
  exists (num_unique (last_column Xt)). rewrite Hfill.
  unfold filled, filled_rank, filled_num_tasks. simpl. rewrite Hnt, Hs, Hrk.
  simpl. split; [reflexivity|]. split; [reflexivity|]. split; [lia|].
  split; [exact H0|].
  intros He. apply H0 in He. rewrite He. reflexivity.
Qed.

(** X17: how [MultiTaskGP.model] fails before it samples.  Inputs without
    dimensions raise [IndexError]; a shared input space without [num_tasks]
    raises [TypeError]; and task-indexed inputs without [num_tasks] on a
    model that was never fit, whose [X_train] is [None], raise [TypeError],
    whatever the argument [X] holds.  In each case the object and the state
    are as before the call. *)
Theorem MultiTaskGP_model_failures (X : arr) (y : option arr)
    (kwargs : dict) (self : MultiTaskGP) (w : world) :
  (shape X = [] ->
   MultiTaskGP_model X y kwargs (self, w) = (inl IndexError, (self, w))) /\
  (forall n sh, shape X = n :: sh ->
     (shared_input self = true -> num_tasks self = None ->
      MultiTaskGP_model X y kwargs (self, w) = (inl TypeError, (self, w))) /\
     (shared_input self = false -> num_tasks self = None ->
      X_train (mt_base self) = None ->
      MultiTaskGP_model X y kwargs (self, w) = (inl TypeError, (self, w)))).
Proof.
  split.
  - intros Hs. unfold MultiTaskGP_model, bind, get_self, shape0, raise.
    simpl. rewrite Hs. reflexivity.
  - intros n sh Hshape. split.
    + intros Hs Hnt.
      unfold MultiTaskGP_model, bind, get_self, shape0, as_int, ret, raise.
      cbn [fst snd]. rewrite Hshape, Hs, Hnt. reflexivity.
    + intros Hs Hnt HX.
      unfold MultiTaskGP_model, bind, get_self, shape0, operand, ret, raise.
      cbn [fst snd]. rewrite Hshape, Hs, Hnt, HX. reflexivity.
Qed.

(** X18: [_sample_task_kernel_params] needs the completed configuration:
    when [num_latents], [num_tasks] or [rank] is [None] (the rank before the
    first call of [model]) it raises [TypeError] and records no site. *)
Theorem _sample_task_kernel_params_needs_configuration
    (self : MultiTaskGP) (w : world) :
  num_latents self = None \/ num_tasks self = None \/ rank self = None ->
  _sample_task_kernel_params self w = (inl TypeError, w).
Proof.
  intros H. unfold _sample_task_kernel_params, bind, as_int, ret, raise.
  destruct (num_latents self), (num_tasks self), (rank self);
    try reflexivity.
  destruct H as [H|[H|H]]; discriminate.
Qed.

End Configuration_properties.

(** ** The default priors of the multi-task model *)

Section Kernel_prior_properties.
Context `{AL : ArrayLib} `{EN : !Engine} `{PK : !Package}.

Lemma sample_LogNormal_lit (name : string) (w : world) :
  sample name (LogNormal (lit 0) (lit 1)) None w =
    (inr (draw name (LogNormal (lit 0) (lit 1)) (plates_batch_shape (plates w))),
     push_site (sample_site name (LogNormal (lit 0) (lit 1)) None (plates w)
                  (draw name (LogNormal (lit 0) (lit 1))
                        (plates_batch_shape (plates w)))) w).
Proof.
  apply sample_drawn, sample_shape_scalar, batch_event_LogNormal_lit.
Qed.

Lemma _sample_kernel_params_run (self : MultiTaskGP) (w : world) (L : Z) :
  num_latents self = Some L -> plates w = [] ->
  0 < L -> 0 < kernel_dim (mt_base self) ->
  let D := kernel_dim (mt_base self) in
  let p1 := {| plate_name := "latent_plate_data"; plate_size := L;
               plate_dim := -2 |} in
  let p2 := {| plate_name := "ard"; plate_size := D; plate_dim := -1 |} in
  let fn := LogNormal (lit 0) (lit 1) in
  let len := draw "k_length" fn [L; D] in
  let s_len := sample_site "k_length" fn None [p1; p2] len in
  let scale := if output_scale self then draw "k_scale" fn [L; 1]
               else ones [L] in
  let s_scale :=
    if output_scale self then sample_site "k_scale" fn None [p1] scale
    else {| site_kind := DeterministicSite; site_name := "k_scale";
            site_fn := None; site_plates := [p1]; site_obs := None;
            site_value := scale |} in
  let per := draw "period" fn [L; 1] in
  let periodic := bool_decide (data_kernel_name self = Some "Periodic") in
  _sample_kernel_params self w =
    (inr (<["k_length" := VArr (squeezer L len)]>
         (<["k_scale" := VArr (squeezer L scale)]>
         (<["period" := if periodic then VArr (squeezer L per) else VNone]> ∅))),
     {| heap := heap w;
        trace := trace w ++ [s_len; s_scale] ++
                 (if periodic then [sample_site "period" fn None [p1] per]
                  else []);
        plates := [] |}).
Proof.
  intros HL Hp HL0 HD0. cbv zeta.
  unfold _sample_kernel_params. cbv zeta. rewrite HL.
  unfold as_int at 1. unfold bind at 1. unfold ret at 1.
  unfold bind at 1. unfold with_plate at 1.
  rewrite decide_False by lia. rewrite decide_False by lia.
  rewrite Hp. cbn [app].
  unfold bind at 1. unfold with_plate at 1.
  rewrite decide_False by lia. rewrite decide_False by lia.
  cbn [plates app].
  rewrite sample_LogNormal_lit. cbn [plates push_site heap trace].
  change (plates_batch_shape _) with [L; kernel_dim (mt_base self)].
  assert (Hb : forall name,
            plates_batch_shape
              [{| plate_name := name; plate_size := L; plate_dim := -2 |}]
            = [L; 1]) by reflexivity.
  destruct (output_scale self);
    destruct (decide (data_kernel_name self = Some "Periodic")) as [Hper|Hper];
    [rewrite (bool_decide_eq_true_2 _ Hper)
    |rewrite (bool_decide_eq_false_2 _ Hper)
    |rewrite (bool_decide_eq_true_2 _ Hper)
    |rewrite (bool_decide_eq_false_2 _ Hper)];
    unfold deterministic, record_site;
    unfold bind, as_int, ret, modify, get; cbv beta iota zeta;
    repeat (rewrite sample_LogNormal_lit; cbv beta iota zeta;
            cbn [plates push_site heap trace fst snd]; rewrite ?Hb);
    unfold squeezer; cbn [plates push_site heap trace fst snd];
    rewrite <- ?app_assoc; reflexivity.
Qed.

(** X19: the default prior of the data kernel.  Outside of any plate and
    for a positive number of latent functions and a positive [kernel_dim]
    (the sizes of its two plates),
    [_sample_kernel_params] returns a dictionary with exactly the names
    [k_length], [k_scale] and [period]: the lengthscales are a draw of shape
    [(num_latents, kernel_dim)], passed through [squeezer]; the scale is the
    array of ones of length [num_latents], recorded as a deterministic site,
    unless [output_scale] is set, when it is a draw of shape
    [(num_latents, 1)]; and [period] is [None] unless the data kernel is
    ['Periodic'], when it is a draw of shape [(num_latents, 1)].  The sites
    are recorded in this order and the plates are closed afterwards. *)
Theorem _sample_kernel_params_dictionary (self : MultiTaskGP) (w : world)
    (L : Z) :
  num_latents self = Some L -> plates w = [] ->
  0 < L -> 0 < kernel_dim (mt_base self) ->
  exists (d : dict) w' len scale,
    _sample_kernel_params self w = (inr d, w') /\
    dom d = list_to_set data_kernel_keys /\
    d !! "k_length" = Some (VArr (squeezer L len)) /\
    shape len = [L; kernel_dim (mt_base self)] /\
    d !! "k_scale" = Some (VArr (squeezer L scale)) /\
    (if output_scale self then shape scale = [L; 1] else scale = ones [L]) /\
    (if bool_decide (data_kernel_name self = Some "Periodic")
     then exists per, d !! "period" = Some (VArr (squeezer L per)) /\
                      shape per = [L; 1]
     else d !! "period" = Some VNone) /\
    heap w' = heap w /\ plates w' = [] /\
    site_name <$> trace w' =
      (site_name <$> trace w) ++ ["k_length"; "k_scale"] ++
      (if bool_decide (data_kernel_name self = Some "Periodic")
       then ["period"] else []).
Proof.
  intros HL Hp HL0 HD0.
  pose proof (_sample_kernel_params_run self w L HL Hp HL0 HD0) as Hrun.
  cbv zeta in Hrun.
  eexists _, _, _, _. split; [exact Hrun|].
  split; [unfold data_kernel_keys; rewrite !dom_insert_L, dom_empty_L;
          set_solver|].
  split; [simplify_map_eq; reflexivity|].
  split; [apply shape_draw; repeat constructor; lia|].
  split; [simplify_map_eq; reflexivity|].
  split.
  { destruct (output_scale self); [|reflexivity].
    apply shape_draw. repeat constructor; lia. }
  split.
  { destruct (bool_decide (data_kernel_name self = Some "Periodic")).
    - eexists. split; [simplify_map_eq; reflexivity|].
      apply shape_draw. repeat constructor; lia.
    - simplify_map_eq. reflexivity. }
  split; [reflexivity|]. split; [reflexivity|].
  cbn [trace]. rewrite !fmap_app.
  destruct (output_scale self),
    (bool_decide (data_kernel_name self = Some "Periodic")); reflexivity.
Qed.

(** The run of [_sample_task_kernel_params] outside of any plate. *)
Lemma _sample_task_kernel_params_sites (self : MultiTaskGP) (w : world)
    L T r :
  num_latents self = Some L -> num_tasks self = Some T -> rank self = Some r ->
  0 < L -> 0 <= T -> 0 <= r -> plates w = [] ->
  let p := {| plate_name := "latent_plate_task"; plate_size := L;
              plate_dim := -1 |} in
  let W_fn := Independent (Normal (zeros [L; T; r])
                                  (mul (lit 10) (ones [L; T; r]))) 2 in
  let v_fn := Independent (LogNormal (zeros [L; T]) (ones [L; T])) 1 in
  let W := draw "W" W_fn [L; T; r] in
  let v := draw "v" v_fn [L; T] in
  _sample_task_kernel_params self w =
    (inr (<["W" := VArr W]> (<["v" := VArr v]> ∅)),
     {| heap := heap w;
        trace := trace w ++ [sample_site "W" W_fn None [p] W;
                             sample_site "v" v_fn None [p] v];
        plates := [] |}).
Proof.
  intros HL HT Hr HL0 HT0 Hr0 Hp. cbv zeta.
  unfold _sample_task_kernel_params. rewrite HL, HT, Hr.
  unfold as_int. unfold bind at 1 2 3. unfold ret at 1 2 3.
  unfold bind at 1. unfold with_plate. rewrite decide_False by lia.
  rewrite Hp. change (free_dim []) with (-1). cbn [app].
  assert (HW : Forall (Z.le 0) [L; T; r]) by (repeat constructor; lia).
  assert (Hv : Forall (Z.le 0) [L; T]) by (repeat constructor; lia).
  unfold bind at 1.
  erewrite sample_drawn; cycle 1.
  { cbn [plates]. apply (sample_shape_in_plate _ L [T; r]).
    apply batch_event_task_W, HW. }
  unfold bind at 1.
  erewrite sample_drawn; cycle 1.
  { cbn [plates push_site]. apply (sample_shape_in_plate _ L [T]).
    apply batch_event_task_v, Hv. }
  unfold ret. cbn [fst snd plates push_site heap trace].
  rewrite <- app_assoc. reflexivity.
Qed.

(** X20: with the default priors no parameter is lost in the merge of the
    two dictionaries: the names of the data kernel and of the task kernel
    are distinct, so the kernel receives the five entries [k_length],
    [k_scale], [period], [W] and [v], each as its prior returned it.  The
    sizes of the plates ([num_latents], [kernel_dim]) are positive and the
    other dimensions non-negative. *)
Theorem default_kernel_params_merge (self : MultiTaskGP) (w : world) L T r :
  num_latents self = Some L -> num_tasks self = Some T -> rank self = Some r ->
  0 < L -> 0 < kernel_dim (mt_base self) -> 0 <= T -> 0 <= r ->
  plates w = [] ->
  exists (dkp : dict) w1 (tkp : dict) w2,
    _sample_kernel_params self w = (inr dkp, w1) /\
    _sample_task_kernel_params self w1 = (inr tkp, w2) /\
    dom (tkp ∪ dkp) = list_to_set (data_kernel_keys ++ task_kernel_keys) /\
    (forall key, key ∈ data_kernel_keys ->
                 (tkp ∪ dkp) !! key = dkp !! key /\ is_Some (dkp !! key)) /\
    (forall key, key ∈ task_kernel_keys ->
                 (tkp ∪ dkp) !! key = tkp !! key /\ is_Some (tkp !! key)).
Proof.
  intros HL HT Hr HL0 HD0 HT0 Hr0 Hp.
  pose proof (_sample_kernel_params_run self w L HL Hp HL0 HD0) as Hdk.
  cbv zeta in Hdk.
  match type of Hdk with _ = (inr ?d, ?w1) =>
    pose proof (_sample_task_kernel_params_sites self w1 L T r HL HT Hr
                  HL0 HT0 Hr0 eq_refl) as Htk;
    exists d, w1 end.
  cbv zeta in Htk. eexists _, _.
  split; [exact Hdk|]. split; [exact Htk|].
  split.
  { unfold data_kernel_keys, task_kernel_keys.
    rewrite dom_union_L, !dom_insert_L, !dom_empty_L. set_solver. }
  unfold data_kernel_keys, task_kernel_keys.
  split; intros key Hkey;
    repeat (apply elem_of_cons in Hkey as [->|Hkey]);
    try (inversion Hkey; fail);
    rewrite lookup_union; simplify_map_eq; split; eauto.
Qed.

Lemma bind_returns {S A B} (c : Py S A) (k : A -> Py S B) s b s' :
  bind c k s = (inr b, s') ->
  exists a s1, c s = (inr a, s1) /\ k a s1 = (inr b, s').
Proof. unfold bind. destruct (c s) as [[e|a] s1]; [discriminate|]. eauto. Qed.

Lemma sample_returns (name : string) (fn : dist) (obs : option arr)
    (w w' : world) v :
  sample name fn obs w = (inr v, w') ->
  w' = push_site (sample_site name fn obs (plates w) v) w.
Proof.
  destruct (sample_cases name fn obs w) as [[v0 ->]|[e ->]];
    intros H; inversion H; reflexivity.
Qed.

(** The body of a plate is run when the size of the plate is positive. *)
Lemma with_plate_returns {A} (name : string) (size : Z) (dim : option Z)
    (body : Py world A) (w w' : world) a :
  with_plate name size dim body w = (inr a, w') ->
  0 < size /\
  exists p w1,
    body {| heap := heap w; trace := trace w; plates := plates w ++ [p] |}
      = (inr a, w1) /\
    w' = {| heap := heap w1; trace := trace w1; plates := plates w |}.
Proof.
  unfold with_plate. destruct (decide (size <= 0)); [discriminate|].
  destruct dim as [d|]; [destruct (decide (0 <= d)); [discriminate|]|];
    match goal with |- context [body ?w0] =>
      destruct (body w0) as [r w1] eqn:Hb end;
    intros H; inversion H; subst; (split; [lia|]); eauto.
Qed.

(** What a run of [_sample_kernel_params] that returns has checked and
    left. *)
Lemma _sample_kernel_params_returns (self : MultiTaskGP) (w w' : world)
    (d : dict) :
  _sample_kernel_params self w = (inr d, w') ->
  let periodic := bool_decide (data_kernel_name self = Some "Periodic") in
  exists L,
    num_latents self = Some L /\ 0 < L /\ 0 < kernel_dim (mt_base self) /\
    heap w' = heap w /\ plates w' = plates w /\
    site_name <$> trace w' =
      (site_name <$> trace w) ++ ["k_length"; "k_scale"] ++
      (if periodic then ["period"] else []) /\
    dom d = list_to_set data_kernel_keys /\
    (if periodic then exists per, d !! "period" = Some (VArr per)
     else d !! "period" = Some VNone).
Proof.
  intros H. cbv zeta. unfold _sample_kernel_params in H. cbv zeta in H.
  destruct (num_latents self) as [L|]; [|discriminate].
  exists L. split; [reflexivity|].
  unfold as_int at 1 in H. unfold bind at 1 in H. unfold ret at 1 in H.
  apply bind_returns in H as (lsp & s1 & Hplate & H).
  apply with_plate_returns in Hplate as (HL0 & p1 & w1 & Hbody & ->).
  apply bind_returns in Hbody as (len & s2 & Hard & Hbody).
  apply with_plate_returns in Hard as (HD0 & p2 & w2 & Hlen & ->).
  apply sample_returns in Hlen. subst w2.
  apply bind_returns in Hbody as (scale & s3 & Hscale & Hbody).
  apply bind_returns in Hbody as (period & s4 & Hper & Hbody).
  unfold ret in Hbody. injection Hbody as <- <-.
  split; [exact HL0|]. split; [exact HD0|].
  assert (Hs3 : heap s3 = heap w /\
                site_name <$> trace s3 =
                  (site_name <$> trace w) ++ ["k_length"; "k_scale"]).
  { destruct (output_scale self).
    - apply sample_returns in Hscale. subst s3.
      cbn [heap trace push_site plates]. split; [reflexivity|].
      rewrite !fmap_app, <- app_assoc. reflexivity.
    - unfold deterministic, bind, get, record_site, modify, ret in Hscale.
      injection Hscale as <- <-.
      cbn [heap trace push_site plates]. split; [reflexivity|].
      rewrite !fmap_app, <- app_assoc. reflexivity. }
  destruct Hs3 as (Hh3 & Ht3).
  destruct (decide (data_kernel_name self = Some "Periodic")) as [Hp|Hp].
  - rewrite (bool_decide_eq_true_2 _ Hp).
    apply bind_returns in Hper as (per & s5 & Hper & Hret).
    unfold ret in Hret. injection Hret as <- <-.
    apply sample_returns in Hper as ->.
    unfold bind, as_int, ret in H. injection H as <- <-.
    cbn [heap trace push_site plates].
    split; [exact Hh3|]. split; [reflexivity|].
    split; [rewrite fmap_app, Ht3, <- app_assoc; reflexivity|].
    split; [unfold data_kernel_keys; rewrite !dom_insert_L, dom_empty_L;
            set_solver|].
    eexists. simplify_map_eq. reflexivity.
  - rewrite (bool_decide_eq_false_2 _ Hp).
    unfold ret in Hper. injection Hper as <- <-.
    unfold bind, as_int, ret in H. injection H as <- <-.
    cbn [heap trace push_site plates].
    split; [exact Hh3|]. split; [reflexivity|].
    split; [rewrite Ht3, app_nil_r; reflexivity|].
    split; [unfold data_kernel_keys; rewrite !dom_insert_L, dom_empty_L;
            set_solver|].
    simplify_map_eq. reflexivity.
Qed.

(** What a run of [_sample_task_kernel_params] that returns has left. *)
Lemma _sample_task_kernel_params_returns (self : MultiTaskGP) (w w' : world)
    (d : dict) :
  _sample_task_kernel_params self w = (inr d, w') ->
  heap w' = heap w /\ plates w' = plates w /\
  site_name <$> trace w' = (site_name <$> trace w) ++ ["W"; "v"] /\
  dom d = list_to_set task_kernel_keys.
Proof.
  intros H. unfold _sample_task_kernel_params in H.
  apply bind_returns in H as (L & s1 & HL & H).
  apply bind_returns in H as (T & s2 & HT & H).
  apply bind_returns in H as (r & s3 & Hr & H).
  unfold as_int, ret, raise in HL, HT, Hr.
  destruct (num_latents self); [|discriminate]. injection HL as <- <-.
  destruct (num_tasks self); [|discriminate]. injection HT as <- <-.
  destruct (rank self); [|discriminate]. injection Hr as <- <-.
  apply bind_returns in H as (Wv & s4 & Hplate & H).
  apply with_plate_returns in Hplate as (_ & p & w1 & Hbody & ->).
  apply bind_returns in Hbody as (W & s5 & HW & Hbody).
  apply bind_returns in Hbody as (v & s6 & Hv & Hbody).
  apply sample_returns in HW. apply sample_returns in Hv. subst s5 s6.
  unfold ret in Hbody, H. injection Hbody as <- <-. injection H as <- <-.
  cbn [heap trace push_site plates fst snd].
  split; [reflexivity|]. split; [reflexivity|].
  split; [rewrite !fmap_app, <- app_assoc; reflexivity|].
  unfold task_kernel_keys. rewrite !dom_insert_L, dom_empty_L. set_solver.
Qed.

(** X23: the period is sampled for the named periodic kernel only.  For a
    constructed model, a dictionary that the default prior of the data
    kernel returns holds a [period] other than [None] exactly when the
    [data_kernel] argument of the constructor is the name ['Periodic']; a
    custom kernel function never gets one. *)
Theorem period_for_named_periodic_kernel_only
    input_dim data_kernel num_latents_ shared_input_space num_tasks_
    rank_ mean_fn_ data_kernel_prior_ mean_fn_prior_ noise_prior_
    task_kernel_prior_ output_scale_ kwargs self (w w' : world) (d : dict) :
  MultiTaskGP_init input_dim data_kernel num_latents_ shared_input_space
    num_tasks_ rank_ mean_fn_ data_kernel_prior_ mean_fn_prior_
    noise_prior_ task_kernel_prior_ output_scale_ kwargs = inr self ->
  _sample_kernel_params self w = (inr d, w') ->
  (d !! "period" = Some VNone <-> data_kernel <> KernelName "Periodic") /\
  (forall k, data_kernel = KernelFn k -> d !! "period" = Some VNone).
Proof.
  intros Hinit Hrun.
  assert (Hname : data_kernel_name self = match data_kernel with
                                          | KernelName s => Some s
                                          | KernelFn _ => None
                                          end).
  { apply MultiTaskGP_init_returns in Hinit as (_ & _ & ->). reflexivity. }
  apply _sample_kernel_params_returns in Hrun
    as (L & _ & _ & _ & _ & _ & _ & _ & Hper).
  cbv zeta in Hper. rewrite Hname in Hper. split.
  - destruct data_kernel as [s|k].
    + destruct (decide (s = "Periodic")) as [->|Hne].
      * rewrite bool_decide_eq_true_2 in Hper by reflexivity.
        destruct Hper as [per Hper]. rewrite Hper.
        split; [discriminate|congruence].
      * rewrite bool_decide_eq_false_2 in Hper by congruence.
        split; [congruence|intros _; exact Hper].
    + rewrite bool_decide_eq_false_2 in Hper by discriminate.
      split; [discriminate|intros _; exact Hper].
  - intros k ->. rewrite bool_decide_eq_false_2 in Hper by discriminate.
    exact Hper.
Qed.

(** X24: nothing is squeezed for a single latent function.  With
    [num_latents] equal to 1 (and a positive [kernel_dim], outside of any
    plate) the default parameters of the data kernel keep the shapes of
    their sites: the lengthscales have the shape [(1, kernel_dim)] and the
    scale the shape [(1,)], or [(1, 1)] when [output_scale] is set. *)
Theorem _sample_kernel_params_single_latent (self : MultiTaskGP)
    (w : world) :
  num_latents self = Some 1 -> plates w = [] ->
  0 < kernel_dim (mt_base self) ->
  exists (d : dict) w',
    _sample_kernel_params self w = (inr d, w') /\
    has_shape d "k_length" [1; kernel_dim (mt_base self)] /\
    has_shape d "k_scale" (if output_scale self then [1; 1] else [1]).
Proof.
  intros HL Hp HD0.
  assert (HL0 : 0 < 1) by lia.
  pose proof (_sample_kernel_params_run self w 1 HL Hp HL0 HD0) as Hrun.
  cbv zeta in Hrun. eexists _, _. split; [exact Hrun|].
  unfold has_shape, squeezer. rewrite !decide_False by lia.
  split; eexists; (split; [simplify_map_eq; reflexivity|]).
  - apply shape_draw. repeat constructor; lia.
  - destruct (output_scale self).
    + apply shape_draw. repeat constructor; lia.
    + apply shape_ones. repeat constructor; lia.
Qed.

End Kernel_prior_properties.

(** ** The multi-task model with its default priors *)

Section Default_run_properties.
Context `{AL : ArrayLib} `{EN : !Engine} `{PK : !Package}.

Lemma lift_world_returns {O A} (c : Py world A) (s s1 : O * world) a :
  lift_world c s = (inr a, s1) ->
  exists w1, c (snd s) = (inr a, w1) /\ s1 = (fst s, w1).
Proof.
  unfold lift_world. destruct (c (snd s)) as [r w1].
  intros H. inversion H. eauto.
Qed.

(** A run of [MultiTaskGP.model] that returns has gone through the three
    priors, with the object as the call leaves it, and has ended with the
    site of [y]. *)
Lemma MultiTaskGP_model_returns (X : arr) (y : option arr) (kwargs : dict)
    (self : MultiTaskGP) (w : world) (s' : MultiTaskGP * world) :
  MultiTaskGP_model X y kwargs (self, w) = (inr tt, s') ->
  let self' := fst s' in
  exists dkp w1 tkp w2 noise w3 w4 f_loc k v,
    hyperprior (data_kernel_prior self') (_sample_kernel_params self') w
      = (inr dkp, w1) /\
    hyperprior (task_kernel_prior self') (_sample_task_kernel_params self') w1
      = (inr tkp, w2) /\
    hyperprior (noise_prior (mt_base self'))
      (T <~ as_int (num_tasks self');;
       sample "noise" (Independent (LogNormal (zeros [T]) (ones [T])) 1) None)
      w2 = (inr noise, w3) /\
    (mean_fn (mt_base self') = None -> w4 = w3) /\
    sample "y" (MultivariateNormal f_loc k) y w4 = (inr v, snd s').
Proof.
  intros H. cbv zeta. unfold MultiTaskGP_model in H.
  apply bind_returns in H as (self0 & s0 & H0 & H).
  unfold get_self in H0. injection H0 as <- <-. cbn [fst snd] in H.
  apply bind_returns in H as (n & s1 & Hn & H).
  assert (s1 = (self, w)) as ->.
  { unfold shape0, ret, raise in Hn. destruct (shape X); inversion Hn.
    reflexivity. }
  apply bind_returns in H as (f0 & s2 & Hf & H).
  assert (s2 = (self, w)) as ->.
  { destruct (shared_input self); [|inversion Hf; reflexivity].
    unfold bind, as_int, ret, raise in Hf.
    destruct (num_tasks self); inversion Hf. reflexivity. }
  apply bind_returns in H as (u1 & s3 & Hinfer & H).
  assert (exists self3, s3 = (self3, w)) as [self3 ->].
  { destruct (negb (shared_input self) && bool_decide (num_tasks self = None));
      [|inversion Hinfer; eauto].
    unfold operand, lift_world, load, update_self in Hinfer.
    unfold bind, get, ret, raise in Hinfer. cbn [fst snd] in Hinfer.
    destruct (X_train (mt_base self)) as [l|]; [|discriminate].
    cbn [fst snd] in Hinfer.
    destruct (heap w !! l); inversion Hinfer. eauto. }
  apply bind_returns in H as (self3' & s3' & H3 & H).
  unfold get_self in H3. injection H3 as <- <-. cbn [fst snd] in H.
  apply bind_returns in H as (u2 & s4 & Hrank & H).
  assert (exists self4, s4 = (self4, w)) as [self4 ->].
  { destruct (rank self3); [inversion Hrank; eauto|].
    unfold bind, as_int, update_self, ret, raise in Hrank.
    destruct (num_tasks self3); inversion Hrank. eauto. }
  apply bind_returns in H as (self4' & s4' & H4 & H).
  unfold get_self in H4. injection H4 as <- <-. cbn [fst snd] in H.
  apply bind_returns in H as (dkp & s5 & Hdk & H).
  apply lift_world_returns in Hdk as (w1 & Hdk & ->). cbn [fst snd] in Hdk.
  apply bind_returns in H as (tkp & s6 & Htk & H).
  apply lift_world_returns in Htk as (w2 & Htk & ->). cbn [fst snd] in Htk.
  apply bind_returns in H as (noise & s7 & Hnoise & H).
  apply lift_world_returns in Hnoise as (w3 & Hnoise & ->).
  cbn [fst snd] in Hnoise.
  apply bind_returns in H as (k & s8 & Hk & H).
  assert (s8 = (self4, w3)) as ->.
  { destruct (kernel (mt_base self4)); inversion Hk. reflexivity. }
  apply bind_returns in H as (f_loc & s9 & Hmean & H).
  assert (exists w4, s9 = (self4, w4) /\
                     (mean_fn (mt_base self4) = None -> w4 = w3))
    as (w4 & -> & Hw4).
  { destruct (mean_fn (mt_base self4)) as [m|];
      [|inversion Hmean; eauto].
    destruct (mean_fn_prior (mt_base self4)) as [prior|];
      [|inversion Hmean; exists w3; split; [reflexivity|discriminate]].
    apply bind_returns in Hmean as (mp & s10 & Hmp & Hret).
    apply lift_world_returns in Hmp as (w4 & _ & ->).
    unfold ret in Hret. injection Hret as _ <-.
    exists w4. split; [reflexivity|discriminate]. }
  apply bind_returns in H as (v & s10 & Hy & H).
  apply lift_world_returns in Hy as (w5 & Hy & ->). cbn [fst snd] in Hy.
  unfold ret in H. injection H as <-. cbn [fst snd].
  exists dkp, w1, tkp, w2, noise, w3, w4, f_loc, k, v.
  unfold hyperprior. auto.
Qed.

(** X21: the sites of a multi-task model with the default priors.  With no
    prior and no mean function given, a run of [model] that returns has
    left the heap and the open plates as they were and has recorded the
    sites [k_length], [k_scale], [period] (for the periodic kernel only),
    [W], [v], [noise] and [y], in this order; and such a run exists only
    for a model with a positive number of latent functions and a positive
    [kernel_dim], the sizes of the plates. *)
Theorem MultiTaskGP_model_default_sites (X : arr) (y : option arr)
    (kwargs : dict) (self : MultiTaskGP) (w : world)
    (s' : MultiTaskGP * world) :
  data_kernel_prior self = None -> task_kernel_prior self = None ->
  noise_prior (mt_base self) = None -> mean_fn (mt_base self) = None ->
  MultiTaskGP_model X y kwargs (self, w) = (inr tt, s') ->
  heap (snd s') = heap w /\ plates (snd s') = plates w /\
  site_name <$> trace (snd s') =
    (site_name <$> trace w) ++ ["k_length"; "k_scale"] ++
    (if bool_decide (data_kernel_name self = Some "Periodic")
     then ["period"] else []) ++
    ["W"; "v"; "noise"; "y"] /\
  exists L, num_latents self = Some L /\ 0 < L /\
            0 < kernel_dim (mt_base self).
Proof.
  intros Hdkp Htkp Hnp Hmf Hrun.
  destruct (MultiTaskGP_model_persists X y kwargs self w)
    as (nt & rk & Hself & _).
  rewrite Hrun in Hself. cbn [fst snd] in Hself.
  apply MultiTaskGP_model_returns in Hrun
    as (dkp & w1 & tkp & w2 & noise & w3 & w4 & f_loc & k & v
        & Hdk & Htk & Hnoise & Hw4 & Hy).
  cbv zeta in *. rewrite Hself in *.
  cbn [set_rank set_num_tasks mt_base data_kernel_prior task_kernel_prior]
    in *.
  rewrite Hdkp in Hdk. rewrite Htkp in Htk. rewrite Hnp in Hnoise.
  unfold hyperprior in *.
  specialize (Hw4 Hmf). subst w4.
  apply _sample_kernel_params_returns in Hdk
    as (L & HL & HL0 & HD0 & Hh1 & Hp1 & Ht1 & _).
  apply _sample_task_kernel_params_returns in Htk as (Hh2 & Hp2 & Ht2 & _).
  assert (Hw3 : heap w3 = heap w2 /\ plates w3 = plates w2 /\
                site_name <$> trace w3 = (site_name <$> trace w2) ++ ["noise"]).
  { destruct (num_tasks (set_rank rk (set_num_tasks nt self))) as [t|];
      unfold bind, as_int, ret, raise in Hnoise; [|discriminate].
    apply sample_returns in Hnoise. subst w3.
    cbn [heap trace plates push_site]. rewrite fmap_app. auto. }
  destruct Hw3 as (Hh3 & Hp3 & Ht3).
  apply sample_returns in Hy. rewrite Hy.
  cbn [heap trace plates push_site].
  cbv zeta in Ht1.
  cbn [set_rank set_num_tasks mt_base data_kernel_name num_latents] in *.
  split; [congruence|]. split; [congruence|]. split.
  - rewrite fmap_app, Ht3, Ht2, Ht1. cbn [fmap list_fmap site_name sample_site].
    rewrite <- !app_assoc. reflexivity.
  - exists L. auto.
Qed.

End Default_run_properties.

(** ** The further properties at the example inputs *)

Section Further_witnesses.
Import Ref Examples.

Lemma bnn_reads_only_its_keys_witness :
  bnn X_train_ex params_ex = bnn X_train_ex weights_ex.
Proof.
  apply (bnn_reads_only_its_keys (AL := arrays)).
  intros key Hkey. unfold bnn_keys in Hkey.
  repeat (apply elem_of_cons in Hkey as [->|Hkey]; [reflexivity|]).
  inversion Hkey.
Defined.

Lemma bnn_raises_on_first_bad_key_witness :
  exists good rest,
    bnn_keys = good ++ "w2" :: rest /\
    Forall (fun k => exists a, params_no_w2_ex !! k = Some (VArr a)) good /\
    params_no_w2_ex !! "w2" = None.
Proof.
  apply (proj1 (proj2 (bnn_raises_on_first_bad_key (AL := arrays) X_train_ex
                         params_no_w2_ex))).
  reflexivity.
Defined.

Lemma bnn_prior_records_six_sites_witness :
  exists sites,
    trace (snd (bnn_prior 2 2 w_empty)) = [] ++ sites /\
    site_name <$> sites = bnn_keys.
Proof.
  destruct (bnn_prior_records_six_sites (AL := arrays) 2 2 w_empty
              (snd (bnn_prior 2 2 w_empty))
              (value_of ∅ (fst (bnn_prior 2 2 w_empty))))
    as (_ & _ & sites & Ht & Hn & _).
  - vm_compute. reflexivity.
  - exists sites. split; [exact Ht|exact Hn].
Defined.

Lemma get_mvn_posterior_failures_witness :
  get_mvn_posterior dkl_ex X_new_ex weights_ex false w_trained
    = (inl (KeyError "noise"), w_trained).
Proof.
  apply (proj1 (get_mvn_posterior_failures (AL := arrays) dkl_ex X_new_ex
                  weights_ex false w_trained)).
  reflexivity.
Defined.

Lemma get_mvn_posterior_cov_ignores_targets_witness :
  snd (value_of (lit 0, lit 0)
         (fst (get_mvn_posterior (with_gp_mean_fn None dkl_ex) X_new_ex
                 params_ex false w_trained)))
  = snd (value_of (lit 0, lit 0)
           (fst (get_mvn_posterior (with_gp_mean_fn (Some mean_one) dkl_ex)
                   X_new_ex params_ex false w_refit))).
Proof.
  apply (get_mvn_posterior_cov_ignores_targets (AL := arrays) dkl_ex X_new_ex
           params_ex false w_trained w_refit None (Some mean_one) 1%positive
           X_train_ex);
    [reflexivity | reflexivity | reflexivity
    | vm_compute; reflexivity | vm_compute; reflexivity].
Defined.

Lemma get_mvn_posterior_jit_keeps_body_properties_witness :
  jit_mean_of (get_mvn_posterior_jit dkl_ex X_new_ex params_ex true
                 ([], w_trained)) =
  jit_mean_of (get_mvn_posterior_jit dkl_ex X_new_ex params_ex false
                 ([], w_trained)).
Proof.
  apply (proj2 (get_mvn_posterior_jit_keeps_body_properties (AL := arrays)
                  dkl_ex [] X_new_ex params_ex w_trained (Forall_nil_2 _))).
Defined.

Lemma gp_mean_fn_prior_is_only_a_switch_witness :
  DKL_model (with_gp_mean_fn_prior (Some (bnn_prior 2 2)) dkl_plain_ex)
            X_train_ex y_train_ex w_empty
  = DKL_model dkl_plain_ex X_train_ex y_train_ex w_empty.
Proof.
  apply (proj2 (gp_mean_fn_prior_is_only_a_switch (AL := arrays) dkl_plain_ex)).
  reflexivity.
Defined.

Lemma DKL_model_failures_witness :
  DKL_model dkl_no_weights_ex X_train_ex y_train_ex w_empty
    = (inl (KeyError "w1"), w_empty).
Proof.
  apply (proj1 (proj2 (DKL_model_failures (AL := arrays) dkl_no_weights_ex
                         X_train_ex y_train_ex w_empty) ∅ w_empty eq_refl)).
  reflexivity.
Defined.

Lemma DKL_model_only_appends_witness :
  appends_only (DKL_model dkl_no_weights_ex X_train_ex y_train_ex).
Proof.
  apply (DKL_model_only_appends (AL := arrays) dkl_no_weights_ex).
  - apply appends_only_ret.
  - discriminate.
  - discriminate.
  - unfold hyperprior. simpl. unfold exact_gp_sample_kernel_params.
    apply appends_only_bind;
      [apply appends_only_with_plate, appends_only_sample|intros].
    apply appends_only_bind; [apply appends_only_sample|intros].
    apply appends_only_ret.
Defined.

Lemma MultiTaskGP_model_only_appends_witness :
  let w' := snd (snd (MultiTaskGP_model X_tasks_ex None ∅ (mtgp_ex, w_tasks))) in
  heap w' = heap w_tasks /\ plates w' = plates w_tasks /\
  trace w_tasks `prefix_of` trace w'.
Proof.
  apply (MultiTaskGP_model_only_appends (AL := arrays) X_tasks_ex None ∅
           mtgp_ex w_tasks); discriminate.
Defined.

Lemma MultiTaskGP_init_invariant_witness :
  is_Some (num_latents mtgp_constructed_ex) /\
  kernel (mt_base mtgp_constructed_ex) =
    OLCMKernel {| lcm_base_kernel := KernelName "RBF";
                  lcm_shared_input_space := false;
                  lcm_num_tasks := None; lcm_kwargs := ∅ |}.
Proof.
  destruct (MultiTaskGP_init_invariant (AL := arrays) (PK := package)
              1 (KernelName "RBF") (Some 2) false None None None None None
              None None false ∅ mtgp_constructed_ex eq_refl)
    as (HL & _ & _ & Hk & _).
  split; [exact HL|exact Hk].
Defined.

Lemma MultiTaskGP_model_inferred_rank_witness :
  let self' :=
    fst (snd (MultiTaskGP_model X_tasks_ex None ∅ (mtgp_ex, w_tasks))) in
  exists t,
    num_tasks self' = Some t /\ rank self' = Some (t - 1) /\
    0 <= t <= 4.
Proof.
  destruct (MultiTaskGP_model_inferred_rank (AL := arrays) X_tasks_ex None ∅
              mtgp_ex w_tasks 4 [2] 1%positive X_tasks_ex)
    as (t & Hnt & Hrk & Hb & _); try reflexivity.
  exists t. split; [exact Hnt|]. split; [exact Hrk|exact Hb].
Defined.

Lemma MultiTaskGP_model_failures_witness :
  MultiTaskGP_model scalar_ex None ∅ (mtgp_ex, w_tasks)
    = (inl IndexError, (mtgp_ex, w_tasks)).
Proof.
  apply (proj1 (MultiTaskGP_model_failures (AL := arrays) scalar_ex None ∅
                  mtgp_ex w_tasks)).
  reflexivity.
Defined.

Lemma _sample_task_kernel_params_needs_configuration_witness :
  _sample_task_kernel_params mtgp_ex w_tasks = (inl TypeError, w_tasks).
Proof.
  apply (_sample_task_kernel_params_needs_configuration (AL := arrays)).
  right. left. reflexivity.
Defined.

Lemma _sample_kernel_params_dictionary_witness :
  exists (d : dict) w',
    _sample_kernel_params mtgp_periodic_ex w_empty = (inr d, w') /\
    dom d = list_to_set data_kernel_keys /\
    site_name <$> trace w' = ["k_length"; "k_scale"; "period"].
Proof.
  destruct (_sample_kernel_params_dictionary (AL := arrays) mtgp_periodic_ex
              w_empty 1)
    as (d & w' & len & scale & Hrun & Hdom & _ & _ & _ & _ & _ & _ & _ & Hn);
    [reflexivity | reflexivity | lia | simpl; lia |].
  exists d, w'. split; [exact Hrun|]. split; [exact Hdom|exact Hn].
Defined.

Lemma default_kernel_params_merge_witness :
  exists (dkp : dict) w1 (tkp : dict) w2,
    _sample_kernel_params mtgp_filled_ex w_empty = (inr dkp, w1) /\
    _sample_task_kernel_params mtgp_filled_ex w1 = (inr tkp, w2) /\
    dom (tkp ∪ dkp) = list_to_set (data_kernel_keys ++ task_kernel_keys).
Proof.
  destruct (default_kernel_params_merge (AL := arrays) mtgp_filled_ex w_empty
              2 3 2)
    as (dkp & w1 & tkp & w2 & H1 & H2 & H3 & _);
    [reflexivity | reflexivity | reflexivity | lia | simpl; lia | lia | lia
    | reflexivity |].
  exists dkp, w1, tkp, w2. auto.
Defined.

Lemma MultiTaskGP_model_default_sites_witness :
  let s' := snd (MultiTaskGP_model X_tasks_ex (Some (full [4] 0)) ∅
                   (mtgp_ex, w_tasks)) in
  site_name <$> trace (snd s') =
    ["k_length"; "k_scale"; "W"; "v"; "noise"; "y"] /\
  exists L, num_latents mtgp_ex = Some L /\ 0 < L.
Proof.
  intros s'.
  destruct (MultiTaskGP_model_default_sites (AL := arrays) X_tasks_ex
              (Some (full [4] 0)) ∅ mtgp_ex w_tasks s')
    as (_ & _ & Hnames & L & HL & HL0 & _).
  - reflexivity.
  - reflexivity.
  - reflexivity.
  - reflexivity.
  - subst s'. vm_compute. reflexivity.
  - split; [exact Hnames|]. exists L. split; [exact HL|exact HL0].
Defined.

Lemma period_for_named_periodic_kernel_only_witness :
  value_of ∅ (fst (_sample_kernel_params mtgp_constructed_ex w_empty))
    !! "period" = Some VNone.
Proof.
  destruct (period_for_named_periodic_kernel_only (AL := arrays)
              (PK := package) 1 (KernelName "RBF") (Some 2) false None None
              None None None None None false ∅ mtgp_constructed_ex
              w_empty
              (snd (_sample_kernel_params mtgp_constructed_ex w_empty))
              (value_of ∅
                 (fst (_sample_kernel_params mtgp_constructed_ex w_empty))))
    as (Hper & _).
  - vm_compute. reflexivity.
  - vm_compute. reflexivity.
  - apply Hper. discriminate.
Defined.

Lemma _sample_kernel_params_single_latent_witness :
  exists (d : dict) w',
    _sample_kernel_params mtgp_periodic_ex w_empty = (inr d, w') /\
    has_shape d "k_length" [1; 1] /\ has_shape d "k_scale" [1].
Proof.
  apply (_sample_kernel_params_single_latent (AL := arrays) mtgp_periodic_ex
           w_empty); [reflexivity | reflexivity | simpl; lia].
Defined.

End Further_witnesses.
